(** * AiAssistant: ledger store, streak calculator and tool dispatch

    A shallow embedding of the deterministic parts of the assistant:
    - [src/agents/finance.py]: the monthly finance ledger (create, parse,
      append, fuzzy delete, undo);
    - [src/agents/goals.py]: the habit tracker (create, streak, update or
      append);
    - [src/agents/orchestrator.py]: the tool-execution step of the ReAct
      loop, the reply of a turn, the identity and memory files;
    - [src/agents/knowledge.py]: saving a note and searching the vault.

    Text model.  A Python [str] is a Rocq [string]: the bytes of its UTF-8
    encoding (a [str] with a lone surrogate has none and is outside the
    model).  Concatenation, [startswith], [in], [split] and [replace] on
    ASCII separators agree with Python on such bytes.  The operations that
    depend on a class of characters are modelled on their ASCII part:
    - [str.strip] and [str.splitlines] in [Text] know the ASCII white
      space and line boundaries; they are Python's on a text that holds
      no other white space ([Codec.plain]);
    - [str.lower], the regex class [\d], [str.isalpha], [str.isdigit] and
      indices into a text are Python's on ASCII text ([Codec.is_ascii]).
    Where a statement depends on it, the theorem names, as a hypothesis,
    the texts it takes to be plain or ASCII.

    Files live in a vault, a finite map from path to the bytes of the file.
    Writing stores the encoding of the text, with ["\n"] as it is (the
    line separator of POSIX); reading decodes the bytes, raises
    [UnicodeDecodeError] on bytes that are not UTF-8, and turns CR LF and
    CR into LF ([Codec.read]).  The clock ([datetime.now()]) is passed in
    as the renderings the code takes of it. *)

From Stdlib Require Import String Ascii List ZArith Lia Bool DecimalString.
From stdpp Require Import base gmap strings.
Import ListNotations.

(** ** Python string operations *)

Module Text.

Definition nl : string := String "010"%char "".

(** [str.isspace] on one ASCII character: TAB, LF, VT, FF, CR, FS, GS, RS,
    US and the space. *)
Definition is_space (a : ascii) : bool :=
  let n := nat_of_ascii a in
  ((9 <=? n)%nat && (n <=? 13)%nat) || ((28 <=? n)%nat && (n <=? 32)%nat).

Definition is_digit (a : ascii) : bool :=
  let n := nat_of_ascii a in (48 <=? n)%nat && (n <=? 57)%nat.

Definition lower_char (a : ascii) : ascii :=
  let n := nat_of_ascii a in
  if (65 <=? n)%nat && (n <=? 90)%nat then ascii_of_nat (n + 32) else a.

(** [s.lower()] of an ASCII text *)
Fixpoint lower (s : string) : string :=
  match s with
  | EmptyString => EmptyString
  | String a s' => String (lower_char a) (lower s')
  end.

(** [s.startswith(p)] *)
Fixpoint startswith (s p : string) {struct p} : bool :=
  match p with
  | EmptyString => true
  | String b p' =>
      match s with
      | EmptyString => false
      | String a s' => Ascii.eqb a b && startswith s' p'
      end
  end.

(** [sub in s] *)
Fixpoint contains (s sub : string) : bool :=
  startswith s sub ||
  match s with
  | EmptyString => false
  | String _ s' => contains s' sub
  end.

Definition is_empty (s : string) : bool :=
  match s with EmptyString => true | _ => false end.

(** Truth value of a string in a condition: non-empty. *)
Definition truthy (s : string) : bool := negb (is_empty s).

Fixpoint lstrip (s : string) : string :=
  match s with
  | EmptyString => EmptyString
  | String a s' => if is_space a then lstrip s' else s
  end.

Fixpoint rstrip (s : string) : string :=
  match s with
  | EmptyString => EmptyString
  | String a s' =>
      let r := rstrip s' in
      if is_space a && is_empty r then EmptyString else String a r
  end.

(** [s.strip()] of a text with no white space beyond ASCII *)
Definition strip (s : string) : string := rstrip (lstrip s).

(** [s.split(sep)] for a one-character separator: never the empty list. *)
Fixpoint split (sep : ascii) (s : string) : list string :=
  match s with
  | EmptyString => [EmptyString]
  | String a s' =>
      if Ascii.eqb a sep then EmptyString :: split sep s'
      else match split sep s' with
           | [] => [String a EmptyString]
           | w :: ws => String a w :: ws
           end
  end.

(** The ASCII line boundaries of [str.splitlines]. *)
Definition is_linebreak (a : ascii) : bool :=
  let n := nat_of_ascii a in
  ((10 <=? n)%nat && (n <=? 13)%nat) || ((28 <=? n)%nat && (n <=? 30)%nat).

(** [s.splitlines()] of a text with no line boundary beyond ASCII: CR LF
    is one boundary, and a final boundary opens no further line. *)
Fixpoint splitlines (s : string) : list string :=
  match s with
  | EmptyString => []
  | String a s' =>
      if is_linebreak a then
        match s' with
        | String b s'' =>
            if Ascii.eqb a "013"%char && Ascii.eqb b "010"%char
            then EmptyString :: splitlines s''
            else EmptyString :: splitlines s'
        | EmptyString => [EmptyString]
        end
      else match splitlines s' with
           | [] => [String a EmptyString]
           | w :: ws => String a w :: ws
           end
  end.

(** [sep.join(l)] *)
Fixpoint join (sep : string) (l : list string) : string :=
  match l with
  | [] => EmptyString
  | [x] => x
  | x :: rest => x +:+ sep +:+ join sep rest
  end.

(** [s.replace(old, new)] for a non-empty [old]: occurrences are taken
    left to right and do not overlap; [skip] counts the characters of the
    occurrence just replaced that are still to be dropped. *)
Fixpoint replace_go (old new s : string) (skip : nat) : string :=
  match s with
  | EmptyString => EmptyString
  | String a s' =>
      match skip with
      | S k => replace_go old new s' k
      | O =>
          if startswith s old
          then new +:+ replace_go old new s' (String.length old - 1)
          else String a (replace_go old new s' 0)
      end
  end.

Definition replace (s old new : string) : string := replace_go old new s 0.

(** The longest run of digits at the head of [s], and what follows it. *)
Fixpoint span_digits (s : string) : string * string :=
  match s with
  | EmptyString => (EmptyString, EmptyString)
  | String a s' =>
      if is_digit a
      then let (d, r) := span_digits s' in (String a d, r)
      else (EmptyString, s)
  end.

(** The match of [\d+(\.\d+)?] anchored at a digit: the digits, then a
    dot and digits when both are there. *)
Definition number_at (s : string) : string :=
  let (d, r) := span_digits s in
  match r with
  | String "."%char r' =>
      let (f, _) := span_digits r' in
      if is_empty f then d else d +:+ "." +:+ f
  | _ => d
  end.

(** [re.search(r'\d+(\.\d+)?', s)] in an ASCII text: the leftmost match,
    if any. *)
Fixpoint search_number (s : string) : option string :=
  match s with
  | EmptyString => None
  | String a s' => if is_digit a then Some (number_at s) else search_number s'
  end.

(** The text of lines that are each closed by a newline: what a file
    holds after whole lines were written to it. *)
Definition unlines (lines : list string) : string :=
  fold_right (fun line rest => line +:+ nl +:+ rest) EmptyString lines.

(** [str(n)] for a natural number. *)
Definition str_of_nat (n : nat) : string :=
  NilZero.string_of_uint (Nat.to_uint n).

End Text.

(** ** How a Python call ends *)

(** With a value, or with a raised [Exception] carrying [str(e)]. *)
Inductive result (A : Type) : Type :=
| Normal (a : A)
| Raised (msg : string).
Arguments Normal {A} a.
Arguments Raised {A} msg.

(** ** Reading a text file *)

Module Codec.
Import Text.

(** ASCII text: every byte is below 128. *)
Fixpoint is_ascii (s : string) : bool :=
  match s with
  | EmptyString => true
  | String a s' => (N_of_ascii a <? 128)%N && is_ascii s'
  end.

(** The UTF-8 decoder stands between two characters, or inside one: the
    next byte then has to lie in [lo..hi], and [more] continuation bytes
    follow it. *)
Inductive utf8_state :=
| Start
| Inside (lo hi : N) (more : nat).

(** One byte of well-formed UTF-8: no overlong form, no surrogate,
    nothing above U+10FFFF. *)
Definition utf8_step (st : utf8_state) (a : ascii) : option utf8_state :=
  let n := N_of_ascii a in
  match st with
  | Start =>
      if (n <? 128)%N then Some Start
      else if (194 <=? n)%N && (n <=? 223)%N then Some (Inside 128 191 0)
      else if (n =? 224)%N then Some (Inside 160 191 1)
      else if (n =? 237)%N then Some (Inside 128 159 1)
      else if (225 <=? n)%N && (n <=? 239)%N then Some (Inside 128 191 1)
      else if (n =? 240)%N then Some (Inside 144 191 2)
      else if (n =? 244)%N then Some (Inside 128 143 2)
      else if (241 <=? n)%N && (n <=? 243)%N then Some (Inside 128 191 2)
      else None
  | Inside lo hi more =>
      if (lo <=? n)%N && (n <=? hi)%N then
        Some match more with
             | O => Start
             | S k => Inside 128 191 k
             end
      else None
  end.

Fixpoint utf8_run (st : utf8_state) (s : string) : option utf8_state :=
  match s with
  | EmptyString => Some st
  | String a s' =>
      match utf8_step st a with
      | Some st' => utf8_run st' s'
      | None => None
      end
  end.

(** The bytes are the encoding of a text. *)
Definition utf8_valid (s : string) : bool :=
  match utf8_run Start s with
  | Some Start => true
  | _ => false
  end.

Definition hex_digit (n : N) : ascii :=
  ascii_of_N (if (n <? 10)%N then 48 + n else 87 + n).

(** ["%02x"] of a byte *)
Definition hex_byte (a : ascii) : string :=
  let n := N_of_ascii a in
  String (hex_digit (n / 16)) (String (hex_digit (n mod 16)) EmptyString).

(** [str(e)] of the [UnicodeDecodeError] for the bytes from [start] up to
    [stop], the first of which is [lead]. *)
Definition decode_error (lead : ascii) (start stop : nat) (reason : string)
  : string :=
  "'utf-8' codec can't decode "
  +:+ (if (stop =? S start)%nat
       then "byte 0x" +:+ hex_byte lead +:+ " in position "
            +:+ str_of_nat start
       else "bytes in position " +:+ str_of_nat start +:+ "-"
            +:+ str_of_nat (stop - 1))
  +:+ ": " +:+ reason.

(** The first error of the strict decoder, if any: [i] is the index of
    the head of [s], and the character being decoded began with the byte
    [lead] at index [start]. *)
Fixpoint utf8_scan (st : utf8_state) (lead : ascii) (start i : nat)
    (s : string) : option string :=
  match s with
  | EmptyString =>
      match st with
      | Start => None
      | Inside _ _ _ =>
          Some (decode_error lead start i "unexpected end of data")
      end
  | String a s' =>
      match utf8_step st a, st with
      | Some st', Start => utf8_scan st' a i (S i) s'
      | Some st', Inside _ _ _ => utf8_scan st' lead start (S i) s'
      | None, Start => Some (decode_error a i (S i) "invalid start byte")
      | None, Inside _ _ _ =>
          Some (decode_error lead start i "invalid continuation byte")
      end
  end.

(** Universal newlines on reading: CR LF and CR become LF. *)
Fixpoint newlines (s : string) : string :=
  match s with
  | EmptyString => EmptyString
  | String a s' =>
      if Ascii.eqb a "013"%char then
        match s' with
        | String b s'' =>
            if Ascii.eqb b "010"%char then String "010"%char (newlines s'')
            else String "010"%char (newlines s')
        | EmptyString => String "010"%char EmptyString
        end
      else String a (newlines s')
  end.

(** [path.read_text(encoding="utf-8")] for a file that holds [bytes]. *)
Definition read (bytes : string) : result string :=
  match utf8_scan Start "000"%char 0 0 bytes with
  | Some e => Raised e
  | None => Normal (newlines bytes)
  end.

Definition bytes_of (codes : list nat) : string :=
  fold_right (fun n s => String (ascii_of_nat n) s) EmptyString codes.

(** The encodings of the characters beyond ASCII that [str.isspace] takes
    for white space: U+0085, U+00A0, U+1680, U+2000 to U+200A, U+2028,
    U+2029, U+202F, U+205F and U+3000.  Three of them, U+0085, U+2028 and
    U+2029, are line boundaries of [str.splitlines] as well. *)
Definition wide_spaces : list string :=
  map bytes_of
    [ [194; 133]; [194; 160]; [225; 154; 128];
      [226; 128; 128]; [226; 128; 129]; [226; 128; 130]; [226; 128; 131];
      [226; 128; 132]; [226; 128; 133]; [226; 128; 134]; [226; 128; 135];
      [226; 128; 136]; [226; 128; 137]; [226; 128; 138];
      [226; 128; 168]; [226; 128; 169]; [226; 128; 175];
      [226; 129; 159]; [227; 128; 128] ]%nat.

(** None of them occurs in the text. *)
Definition narrow (s : string) : bool :=
  negb (existsb (contains s) wide_spaces).

(** A plain text: well-formed UTF-8 whose white space and line boundaries
    are the ASCII ones. *)
Definition plain (s : string) : bool := utf8_valid s && narrow s.

(** A text with no end of line in it: no LF, and no CR, which reading
    turns into LF. *)
Definition one_line (s : string) : bool :=
  utf8_valid s && negb (contains s nl)
  && negb (contains s (String "013"%char EmptyString)).

End Codec.

(** ** The vault and the clock *)

(** Files of the vault: path to the bytes of the file.  A path that is
    not a key does not exist. *)
Abbreviation vault := (gmap string string).

(** [datetime.now()], as the renderings the code takes of it. *)
Record clock := {
  ym : string;          (* strftime("%Y-%m") *)
  ymd : string;         (* strftime("%Y-%m-%d") *)
  month_year : string;  (* strftime("%B %Y") *)
  stamp : string        (* strftime("%Y-%m-%d %H:%M") *)
}.

(** A table record: the ordered mapping from column name to value that
    [dict(zip(headers, values))] builds. *)
Definition record := list (string * string).

Fixpoint dict_set (d : record) (k v : string) : record :=
  match d with
  | [] => [(k, v)]
  | (k', v') :: d' =>
      if String.eqb k' k then (k', v) :: d' else (k', v') :: dict_set d' k v
  end.

Definition dict (pairs : list (string * string)) : record :=
  fold_left (fun d kv => dict_set d (fst kv) (snd kv)) pairs [].

(** [[c.strip() for c in line.split('|') if c.strip()]] *)
Definition cells (line : string) : list string :=
  List.filter Text.truthy (map Text.strip (Text.split "|" line)).

(** The text of a table row with the given cells: ["| c1 | ... | cn |"]. *)
Definition table_row (cs : list string) : string :=
  "|" +:+ fold_right (fun c rest => " " +:+ c +:+ " |" +:+ rest) "" cs.

(** ** The finance ledger ([src/agents/finance.py]) *)

Module Finance.
Import Text.

Definition _get_current_month_file (now : clock) : string :=
  "vault/Finance/" +:+ ym now +:+ "-Finance.md".

Definition header_row : string :=
  "| Date | Type | Category | Description | Amount | Currency |".

Definition separator_row : string :=
  "| :--- | :--- | :--- | :--- | :--- | :--- |".

(** The lines of the template of [_ensure_file_exists]. *)
Definition header_lines (now : clock) : list string :=
  [ "---"; "type: finance_log"; "status: active"; "created: " +:+ ymd now;
    "---"; ""; "# Financial Log: " +:+ month_year now; "";
    header_row; separator_row ].

Definition header (now : clock) : string := join nl (header_lines now) +:+ nl.

Definition _ensure_file_exists (fs : vault) (file_path : string) (now : clock)
  : vault :=
  match fs !! file_path with
  | Some _ => fs
  | None => <[file_path := header now]> fs
  end.

(** The loop of [_parse_markdown_table] over the remaining lines, with the
    headers found so far. *)
Fixpoint parse_lines (lines : list string) (headers : list string)
  : list record :=
  match lines with
  | [] => []
  | raw :: rest =>
      let line := strip raw in
      if is_empty line || negb (startswith line "|") then
        parse_lines rest headers
      else if contains line "Date" && (length headers =? 0)%nat then
        parse_lines rest (cells line)
      else if contains line ":---" then
        parse_lines rest headers
      else if negb (length headers =? 0)%nat then
        let values := cells line in
        if (length values =? length headers)%nat
        then dict (combine headers values) :: parse_lines rest headers
        else parse_lines rest headers
      else parse_lines rest headers
  end.

Definition _parse_markdown_table (markdown_content : string) : list record :=
  parse_lines (split "010" markdown_content) [].

Definition any_in (text : string) (words : list string) : bool :=
  existsb (contains text) words.

(** The category written by [log_transaction]: inferred from the
    description when the caller left it at ["General"]. *)
Definition infer_category (category description : string) : string :=
  if String.eqb category "General" then
    let desc_lower := lower description in
    if any_in desc_lower ["uber"; "taxi"; "bus"; "train"; "gas"]
    then "Transport"
    else if any_in desc_lower
              ["food"; "lunch"; "dinner"; "groceries"; "market"; "arepa"]
    then "Food"
    else if any_in desc_lower ["netflix"; "spotify"; "movie"; "game"]
    then "Entertainment"
    else if any_in desc_lower ["salary"; "freelance"; "client"]
    then "Income"
    else category
  else category.

(** The row of [log_transaction], without its final newline. *)
Definition row_text (date_str type category description amount currency : string)
  : string :=
  "| " +:+ date_str +:+ " | " +:+ type +:+ " | " +:+ category +:+ " | "
  +:+ description +:+ " | " +:+ amount +:+ " | " +:+ currency +:+ " |".

(** [open(file_path, "a").write(row)] *)
Definition append_text (fs : vault) (file_path text : string) : vault :=
  <[file_path := default "" (fs !! file_path) +:+ text]> fs.

(** [log_transaction]; [amount] is the text [str(amount)] that the row and
    the reply interpolate. *)
Definition log_transaction (fs : vault) (now : clock)
    (description amount type category currency : string) : vault * string :=
  let file_path := _get_current_month_file now in
  let fs := _ensure_file_exists fs file_path now in
  let category := infer_category category description in
  let row :=
    row_text (stamp now) type category description amount currency +:+ nl in
  (append_text fs file_path row,
   "Transaction logged: " +:+ type +:+ " of " +:+ amount +:+ " " +:+ currency
   +:+ " for '" +:+ description +:+ "' (" +:+ category +:+ ").").

(** The criteria after preprocessing. *)
Definition clean (criteria : string) : string :=
  strip (replace (replace (replace (replace (lower criteria) "$" "") "," "")
                    "usd" "") "cop" "").

(** The lines the scan of [delete_specific_transaction] passes over. *)
Definition is_skipped (line : string) : bool :=
  startswith line "| Date" || startswith line "| :---"
  || is_empty (strip line) || startswith line "#"
  || startswith line "---" || startswith line "type:".

(** [criteria_number and criteria_number in line_lower] *)
Definition number_hit (criteria_number : option string) (line_lower : string)
  : bool :=
  match criteria_number with
  | Some n => truthy n && contains line_lower n
  | None => false
  end.

(** The scan for the last match: [i] is the index of the head of [lines],
    [match_index] the best match so far ([-1] for none). *)
Fixpoint scan (clean_criteria : string) (criteria_number : option string)
    (lines : list string) (i match_index : Z) : Z :=
  match lines with
  | [] => match_index
  | line :: rest =>
      if is_skipped line then
        scan clean_criteria criteria_number rest (i + 1) match_index
      else
        let line_lower := lower line in
        if number_hit criteria_number line_lower then
          scan clean_criteria criteria_number rest (i + 1) i
        else if contains line_lower clean_criteria then
          scan clean_criteria criteria_number rest (i + 1) i
        else scan clean_criteria criteria_number rest (i + 1) match_index
  end.

Definition find_match (lines : list string) (criteria : string) : Z :=
  let clean_criteria := clean criteria in
  scan clean_criteria (search_number clean_criteria) lines 0 (-1).

Definition write_lines (fs : vault) (file_path : string) (lines : list string)
  : vault :=
  <[file_path := join nl lines +:+ nl]> fs.

Definition delete_specific_transaction (fs : vault) (now : clock)
    (criteria : string) : vault * string :=
  let file_path := _get_current_month_file now in
  match fs !! file_path with
  | None => (fs, "No transaction file found for this month.")
  | Some bytes =>
      match Codec.read bytes with
      | Raised e => (fs, "Failed to delete transaction: " +:+ e)
      | Normal content =>
          let lines := splitlines content in
          let match_index := find_match lines criteria in
          if (match_index =? -1)%Z then
            (fs, "No matching transaction found for '" +:+ criteria +:+ "'.")
          else
            match lines !! Z.to_nat match_index with
            | Some deleted_line =>
                (write_lines fs file_path
                   (delete (Z.to_nat match_index) lines),
                 "Successfully deleted transaction: " +:+ deleted_line)
            | None =>
                (fs, "Failed to delete transaction: list index out of range")
            end
      end
  end.

(** The test of [undo_last_transaction] for a data line. *)
Definition is_data_line (line : string) : bool :=
  truthy (strip line) && startswith line "|"
  && negb (startswith line "| Date") && negb (startswith line "| :---").

(** [for i in range(n - 1, -1, -1)]: the last data line below index [n]. *)
Fixpoint last_data_line (lines : list string) (n : nat) : option nat :=
  match n with
  | O => None
  | S i =>
      match lines !! i with
      | Some line =>
          if is_data_line line then Some i else last_data_line lines i
      | None => None
      end
  end.

Definition undo_last_transaction (fs : vault) (now : clock) : vault * string :=
  let file_path := _get_current_month_file now in
  match fs !! file_path with
  | None => (fs, "No transaction file found.")
  | Some bytes =>
      match Codec.read bytes with
      | Raised e => (fs, "Failed to undo transaction: " +:+ e)
      | Normal content =>
          let lines := splitlines content in
          match last_data_line lines (length lines) with
          | Some i =>
              (write_lines fs file_path (delete i lines),
               "Undid last transaction: " +:+ default "" (lines !! i))
          | None => (fs, "No transactions found to undo.")
          end
      end
  end.

(** What the two checks of the scan accept together: the number found in
    the criteria occurs in the lowercased line, or the cleaned criteria
    does. *)
Definition line_matches (criteria line : string) : bool :=
  let clean_criteria := clean criteria in
  number_hit (search_number clean_criteria) (lower line)
  || contains (lower line) clean_criteria.

(** One call of [log_transaction]: the clock it reads and its arguments. *)
Record call := {
  at_time : clock;
  description : string;
  amount : string;
  type : string;
  category : string;
  currency : string
}.

Definition log_call (fs : vault) (c : call) : vault :=
  fst (log_transaction fs (at_time c) (description c) (amount c) (type c)
         (category c) (currency c)).

(** The row a call writes, and the record it stands for. *)
Definition row_of (c : call) : string :=
  row_text (stamp (at_time c)) (type c)
    (infer_category (category c) (description c)) (description c) (amount c)
    (currency c).

Definition record_of (c : call) : record :=
  [ ("Date", stamp (at_time c)); ("Type", type c);
    ("Category", infer_category (category c) (description c));
    ("Description", description c); ("Amount", amount c);
    ("Currency", currency c) ].

(** A value that a table cell can hold and give back: a text on one
    line that is not blank, with no white space beyond ASCII, no
    surrounding whitespace and no column separator. *)
Definition valid_cell (c : string) : bool :=
  truthy c && Codec.narrow c && Codec.one_line c && String.eqb (strip c) c
  && negb (contains c "|").

(** A well-formed call: every cell of its row is a valid cell, the row is
    not taken for a separator row, and the description is ASCII when the
    category is to be inferred from it. *)
Definition well_formed (c : call) : bool :=
  forallb valid_cell
    [ stamp (at_time c); type c;
      infer_category (category c) (description c); description c; amount c;
      currency c ]
  && negb (contains (row_of c) ":---")
  && (negb (String.eqb (category c) "General")
      || Codec.is_ascii (description c)).

(** The columns of the ledger, as the header row names them. *)
Definition columns : list string :=
  ["Date"; "Type"; "Category"; "Description"; "Amount"; "Currency"].

(** The value of a column in a record ([""] when absent). *)
Fixpoint field (r : record) (k : string) : string :=
  match r with
  | [] => ""
  | (k', v) :: r' => if String.eqb k' k then v else field r' k
  end.

End Finance.

(** ** The habit tracker ([src/agents/goals.py]) *)

Module Goals.
Import Text.

Definition tracker_file : string := "vault/Goals/Habit-Tracker.md".

Definition tracker_template : string :=
  join nl [ "# Habit Tracker 🏃"; "";
            "| Date | Habit | Status | Coach Comment |";
            "| :--- | :--- | :--- | :--- |" ] +:+ nl.

Definition _ensure_tracker_exists (fs : vault) : vault :=
  match fs !! tracker_file with
  | Some _ => fs
  | None => <[tracker_file := tracker_template]> fs
  end.

Definition in_list (s : string) (l : list string) : bool :=
  existsb (String.eqb s) l.

(** The statuses for which a streak is computed. *)
Definition is_success_status (status : string) : bool :=
  in_list (lower status) ["done"; "completed"; "yes"; "new project started"].

(** What the streak loop takes for a success in a stored line. *)
Definition has_success_mark (line : string) : bool :=
  contains line "Done" || contains line "Yes" || contains line "New Project".

(** The streak loop over the lines, most recent first: [break] at the
    first line that names the habit without a success mark. *)
Fixpoint count_streak (habit : string) (lines : list string) (streak : nat)
  : nat :=
  match lines with
  | [] => streak
  | line :: rest =>
      if contains line habit && has_success_mark line then
        count_streak habit rest (S streak)
      else if contains line habit then streak
      else count_streak habit rest streak
  end.

(** The streak that [log_habit] computes from the tracker it reads. *)
Definition streak_of (content habit status : string) : nat :=
  if is_success_status status
  then count_streak habit (rev (split "010" content)) 0
  else 0.

Definition coach_comment (streak : nat) (status : string) : string :=
  if (2 <? streak)%nat then "🔥 " +:+ str_of_nat streak +:+ " day streak!"
  else if in_list (lower status) ["missed"; "no"; "fail"]
  then "⚠️ Don't let this slide."
  else "Keep pushing.".

Definition habit_row (date_str habit status comment : string) : string :=
  "| " +:+ date_str +:+ " | " +:+ habit +:+ " | " +:+ status +:+ " | "
  +:+ comment +:+ " |".

(** The lines the update loop passes over. *)
Definition is_passed (line : string) : bool :=
  negb (startswith line "|") || startswith line "| :---"
  || contains line "Date".

(** [len(parts) >= 4 and parts[0] == date_str and parts[1] == habit] *)
Definition has_key (line date_str habit : string) : bool :=
  let parts := cells line in
  (4 <=? length parts)%nat
  && match parts with
     | p0 :: p1 :: _ => String.eqb p0 date_str && String.eqb p1 habit
     | _ => false
     end.

(** The update loop: the lines with the first row of that day and habit
    replaced, or [None] when the loop ends with [updated = False]. *)
Fixpoint update_row (lines : list string) (date_str habit new_row : string)
  : option (list string) :=
  match lines with
  | [] => None
  | line :: rest =>
      if is_passed line then
        cons line <$> update_row rest date_str habit new_row
      else if has_key line date_str habit then Some (new_row :: rest)
      else cons line <$> update_row rest date_str habit new_row
  end.

(** The branch [if not updated]: a blank line after a non-blank last
    line, then the row. *)
Definition append_row (lines : list string) (new_row : string) : list string :=
  match last lines with
  | Some l =>
      if truthy (strip l) then lines ++ [""; new_row] else lines ++ [new_row]
  | None => lines ++ [new_row]
  end.

Definition updated_lines (lines : list string) (date_str habit new_row : string)
  : list string :=
  match update_row lines date_str habit new_row with
  | Some lines' => lines'
  | None => append_row lines new_row
  end.

Definition log_habit (fs : vault) (now : clock) (habit status : string)
  : vault * string :=
  let date_str := ymd now in
  let read_text :=
    match fs !! tracker_file with
    | None =>
        Raised ("[Errno 2] No such file or directory: "
                +:+ "'vault/Goals/Habit-Tracker.md'")
    | Some bytes => Codec.read bytes
    end in
  match read_text with
  | Raised e => (fs, "Failed to log habit: " +:+ e)
  | Normal content =>
      let streak := streak_of content habit status in
      let comment := coach_comment streak status in
      let new_row := habit_row date_str habit status comment in
      let lines := updated_lines (splitlines content) date_str habit new_row in
      (<[tracker_file := strip (join nl lines) +:+ nl]> fs,
       "Habit '" +:+ habit +:+ "' logged as " +:+ status +:+ ". " +:+ comment)
  end.

End Goals.

(** ** The ReAct loop ([src/agents/orchestrator.py]) *)

Module Orchestrator.

Section ReAct.

(** The named arguments of a call, and the chat session of the model
    client with its [send_message]; all three are opaque here. *)
Variable Args : Type.
Variable session : Type.

(** One part of a model response: its text and its function call, either
    of which may be unset. *)
Record part := {
  text : string;
  function_call : option (string * Args)
}.

Definition response := list part.

(** What is sent to the model: the user content, or the response of a
    function. *)
Inductive message :=
| UserContent (content : string)
| FunctionResponse (name : string) (tool_result : string).

Variable send_message : session -> message -> session * result response.

(** A tool is a capability over the vault. *)
Definition tool := Args -> vault -> vault * result string.

Record world := { chat : session; files : vault }.

(** Computations of the loop: state passing with exceptions. *)
Definition M (A : Type) : Type := world -> world * result A.

Definition ret {A} (a : A) : M A := fun w => (w, Normal a).

Definition bind {A B} (m : M A) (k : A -> M B) : M B :=
  fun w =>
    match m w with
    | (w', Normal a) => k a w'
    | (w', Raised e) => (w', Raised e)
    end.

(** [try: m  except Exception as e: handler(str(e))] *)
Definition try_except {A} (m : M A) (handler : string -> M A) : M A :=
  fun w =>
    match m w with
    | (w', Normal a) => (w', Normal a)
    | (w', Raised e) => handler e w'
    end.

Notation "x <~ m ;; k" := (bind m (fun x => k))
  (at level 100, m at next level, right associativity).

Definition invoke (f : tool) (args : Args) : M string :=
  fun w =>
    let (fs', r) := f args (files w) in
    ({| chat := chat w; files := fs' |}, r).

Definition chat_send (msg : message) : M response :=
  fun w =>
    let (c', r) := send_message (chat w) msg in
    ({| chat := c'; files := files w |}, r).

(** The tool-execution step of the loop body. *)
Definition execute_tool (available_tools : gmap string tool)
    (tool_name : string) (args : Args) : M string :=
  match available_tools !! tool_name with
  | Some f =>
      try_except (invoke f args)
        (fun e => ret ("Error executing tool: " +:+ e))
  | None => ret ("Error: Tool " +:+ tool_name +:+ " not found.")
  end.

(** The first part of the candidate that carries a function call. *)
Fixpoint first_function_call (parts : response) : option (string * Args) :=
  match parts with
  | [] => None
  | p :: rest =>
      match function_call p with
      | Some fc => Some fc
      | None => first_function_call rest
      end
  end.

(** One pass through the body of [while True]: [None] is [break], and
    [Some r] the response the next pass starts from. *)
Definition loop_body (available_tools : gmap string tool) (r : response)
  : M (option response) :=
  match first_function_call r with
  | None => ret None
  | Some (tool_name, args) =>
      tool_result <~ execute_tool available_tools tool_name args ;;
      r' <~ chat_send (FunctionResponse tool_name tool_result) ;;
      ret (Some r')
  end.

(** The loop, cut after [fuel] passes: the response it leaves with, or
    [None] when the model is still calling tools. *)
Fixpoint react_loop (fuel : nat) (available_tools : gmap string tool)
    (r : response) : M (option response) :=
  match fuel with
  | O => ret None
  | S fuel' =>
      next <~ loop_body available_tools r ;;
      match next with
      | None => ret (Some r)
      | Some r' => react_loop fuel' available_tools r'
      end
  end.

End ReAct.

Arguments text {Args} p.
Arguments function_call {Args} p.
Arguments Build_part {Args} text function_call.
Arguments chat {session} w.
Arguments files {session} w.
Arguments Build_world {session} chat files.
Arguments ret {session A} a.
Arguments bind {session A B} m k.
Arguments try_except {session A} m handler.
Arguments invoke {Args session} f args.
Arguments chat_send {Args session} send_message msg.
Arguments execute_tool {Args session} available_tools tool_name args.
Arguments first_function_call {Args} parts.
Arguments loop_body {Args session} send_message available_tools r.
Arguments react_loop {Args session} send_message fuel available_tools r.

End Orchestrator.

(** ** The claims of the specification, in its own words *)

Module Stated.
Import Text.

(** Follows the specification: a row matches when the numeric token
    extracted from the normalized criteria occurs verbatim in the row, or
    the full normalized criteria occurs as a substring of the row. *)
Definition row_matches (criteria row : string) : bool :=
  let normalized := Finance.clean criteria in
  Finance.number_hit (search_number normalized) row
  || contains row normalized.

(** Follows the specification: the rows of a habit are those whose Habit
    column is that habit. *)
Definition habit_of (line : string) : option string := cells line !! 1%nat.

Definition is_row_of (habit line : string) : bool :=
  match habit_of line with
  | Some h => String.eqb h habit
  | None => false
  end.

(** Follows the specification: the status of a row, in its Status
    column, belongs to the success class. *)
Definition status_of (line : string) : option string := cells line !! 2%nat.

Definition is_success_row (line : string) : bool :=
  match status_of line with
  | Some status => Goals.is_success_status status
  | None => false
  end.

(** The number of leading elements of a list that satisfy [p]. *)
Fixpoint leading {A : Type} (p : A -> bool) (l : list A) : nat :=
  match l with
  | [] => 0
  | x :: l' => if p x then S (leading p l') else 0
  end.

(** Follows the specification: the count of consecutive success-status
    rows for the habit, over the lines most recent first, stopping at the
    first row for the same habit whose status is not in the success
    class. *)
Definition streak (habit : string) (recent_first : list string) : nat :=
  leading is_success_row (List.filter (is_row_of habit) recent_first).

(** A line on which the tests of the streak loop are those of the
    specification: the name of the habit occurs in it exactly when it is a
    row of the habit, and such a row carries a success mark exactly when
    its status is in the success class. *)
Definition told_apart (habit line : string) : bool :=
  Bool.eqb (contains line habit) (is_row_of habit line)
  && (negb (is_row_of habit line)
      || Bool.eqb (Goals.has_success_mark line) (is_success_row line)).

End Stated.

(** ** Ledgers and trackers built by the operations themselves *)

Module Scenario.
Import Text.

Definition november (day time : string) : clock :=
  {| ym := "2025-11"; ymd := "2025-11-" +:+ day;
     month_year := "November 2025";
     stamp := "2025-11-" +:+ day +:+ " " +:+ time |}.


Definition expense (now : clock) (description amount : string) : Finance.call :=
  {| Finance.at_time := now; Finance.description := description;
     Finance.amount := amount; Finance.type := "Expense";
     Finance.category := "General"; Finance.currency := "USD" |}.

Definition ledger (calls : list Finance.call) : vault :=
  fold_left Finance.log_call calls ∅.

(** A ledger of the month with no transaction yet. *)
Definition fresh_ledger : vault :=
  Finance._ensure_file_exists ∅
    (Finance._get_current_month_file (november "03" "09:00"))
    (november "03" "09:00").

(** Amounts 10, 20, 10, appended in that order. *)
Definition ten_twenty_ten : list Finance.call :=
  [ expense (november "03" "09:00") "Lunch" "10.0";
    expense (november "03" "13:30") "Book" "20.0";
    expense (november "04" "08:15") "Taxi home" "10.0" ].

Definition coffees : list Finance.call :=
  [ expense (november "03" "09:00") "coffee beans" "5.0";
    expense (november "03" "09:30") "Coffee" "7.0" ].


Definition log (fs : vault) (day habit status : string) : vault :=
  fst (Goals.log_habit fs (november day "08:00") habit status).

(** The tracker after the given logs, one per day from the first of the
    month. *)
Definition tracker_after (logs : list (string * string * string)) : vault :=
  fold_left (fun fs l => log fs (fst (fst l)) (snd (fst l)) (snd l)) logs
    (Goals._ensure_tracker_exists ∅).

Definition tracker_text (fs : vault) : string :=
  default "" (fs !! Goals.tracker_file).

(** A registry of two tools over the vault, one of which always raises. *)
Definition two_tools : gmap string (Orchestrator.tool (list string)) :=
  <["undo_last_transaction" :=
      fun _ fs =>
        let (fs', reply) :=
          Finance.undo_last_transaction fs (november "03" "09:00") in
        (fs', Normal reply)]>
  (<["log_habit" :=
      fun _ fs =>
        (fs, Raised
               "GoalsAgent.log_habit() missing 1 required positional argument: 'status'")]>
   ∅).

End Scenario.

(** ** More Python string operations *)

Module MoreText.
Import Text.

(** [any(p(c) for c in s)] and [all(p(c) for c in s)] *)
Fixpoint any_char (p : ascii -> bool) (s : string) : bool :=
  match s with
  | EmptyString => false
  | String a s' => p a || any_char p s'
  end.

Fixpoint all_chars (p : ascii -> bool) (s : string) : bool :=
  match s with
  | EmptyString => true
  | String a s' => p a && all_chars p s'
  end.


(** The text holds a line boundary of [str.splitlines]. *)
Definition has_linebreak (s : string) : bool := any_char is_linebreak s.



(** [s.find(sub)]: the lowest index of an occurrence, or [-1]; [i] is the
    index of the head of [s]. *)
Fixpoint find_from (s sub : string) (i : Z) : Z :=
  if startswith s sub then i
  else match s with
       | EmptyString => (-1)%Z
       | String _ s' => find_from s' sub (i + 1)
       end.

Definition find (s sub : string) : Z := find_from s sub 0.

(** [s[start:stop]] for indices that are not negative. *)
Definition slice (s : string) (start stop : Z) : string :=
  substring (Z.to_nat start) (Z.to_nat (stop - start)) s.

(** [s.split(sep, 1)[1]]: what follows the first separator; [None] when
    there is none and the index is out of range. *)
Fixpoint after_first (sep : ascii) (s : string) : option string :=
  match s with
  | EmptyString => None
  | String a s' => if Ascii.eqb a sep then Some s' else after_first sep s'
  end.

(** [Path(p).name]: the last component of the path. *)
Definition basename (path : string) : string :=
  List.last (split "/" path) EmptyString.

End MoreText.

(** ** Identity, memory and sessions ([src/agents/orchestrator.py]) *)

Module Identity.
Import Text MoreText.

Definition config_path : string := "vault/Internal/SystemConfig.md".
Definition profile_path : string := "vault/Internal/UserProfile.md".

(** The loop of [_get_system_config] over the lines of the file: the
    first line that starts with the key decides. *)
Fixpoint config_name (lines : list string) : option string :=
  match lines with
  | [] => None
  | line :: rest =>
      if startswith line "Assistant Name:" then
        match after_first ":" line with
        | Some value => Some (strip value)
        | None => None
        end
      else config_name rest
  end.

Definition _get_system_config (fs : vault) : option string :=
  match fs !! config_path with
  | Some bytes =>
      match Codec.read bytes with
      | Normal content => config_name (splitlines content)
      | Raised _ => None
      end
  | None => None
  end.

(** The content that [set_assistant_name] sets out to write; [updated]
    stands for [str(datetime.now())]. *)
Definition config_text (name updated : string) : string :=
  "# System Configuration" +:+ nl +:+ "Assistant Name: " +:+ name +:+ nl
  +:+ "Updated: " +:+ updated.

(** [set_assistant_name]: the module does not import [datetime], so
    building the content raises [NameError] before anything is written,
    and the handler turns it into the reply. *)
Definition set_assistant_name (fs : vault) (name : string) : vault * string :=
  (fs, "Failed to set name: name 'datetime' is not defined").

Definition _load_user_profile (fs : vault) : string :=
  match fs !! profile_path with
  | Some bytes =>
      match Codec.read bytes with
      | Normal content => content
      | Raised _ => "Error loading User Profile."
      end
  | None => "User Profile NOT FOUND. Please ask user for introduction."
  end.

Definition remember_fact (fs : vault) (fact : string) : vault * string :=
  let fs :=
    match fs !! profile_path with
    | Some _ => fs
    | None => <[profile_path := "# User Profile & Core Memory" +:+ nl]> fs
    end in
  (Finance.append_text fs profile_path (nl +:+ "- " +:+ fact),
   "Memory updated.").

Definition identity_context (fs : vault) : string :=
  "Assistant Name: "
  +:+ match _get_system_config fs with
      | Some assistant_name =>
          if truthy assistant_name then assistant_name
          else "NOT SET (Ask User)"
      | None => "NOT SET (Ask User)"
      end.

(** The first turn of a new session. *)
Definition preamble (fs : vault) : string :=
  join nl
    [ ""; "SYSTEM CONTEXT:"; identity_context fs; ""; "USER PROFILE:";
      _load_user_profile fs; ""; "INSTRUCTION:";
      "If 'Assistant Name' is NOT SET, ask for it.";
      "If 'User Profile' is NOT FOUND, ask for it.";
      "Otherwise, operate normally."; "                    " ].

(** The seeded history: role and text of each turn. *)
Definition history (fs : vault) : list (string * string) :=
  [ ("user", preamble fs);
    ("model",
     "Understood. I will check my identity and user profile before proceeding.") ].

Section Sessions.

(** The chat handles of the model client, and its [start_chat]. *)
Variable session : Type.
Variable start_chat : list (string * string) -> session.

(** Step 1 of [process_message]: the session of the sender, created at
    first contact. *)
Definition get_session (sessions : gmap string session) (fs : vault)
    (sender : string) : gmap string session * session :=
  match sessions !! sender with
  | Some chat => (sessions, chat)
  | None =>
      let chat := start_chat (history fs) in
      (<[sender := chat]> sessions, chat)
  end.

End Sessions.

Arguments get_session {session} start_chat sessions fs sender.

End Identity.

(** ** The reply of a conversation ([src/agents/orchestrator.py]) *)

Module Conversation.
Import Text Orchestrator.

Section Reply.

Variable Args : Type.
Variable session : Type.
Variable send_message : session -> message -> session * result (response Args).

(** ["".join(final_text_parts)] over the parts with a text. *)
Fixpoint joined_text (parts : response Args) : string :=
  match parts with
  | [] => EmptyString
  | p :: rest =>
      if truthy (text p) then text p +:+ joined_text rest
      else joined_text rest
  end.

(** Step 5 of [process_message]: the text of the closing response. *)
Definition final_text (r : response Args) : string :=
  let final_response := strip (joined_text r) in
  if truthy final_response then final_response
  else "✅ Tarea completada (Sin respuesta de texto).".

(** Steps 3 to 5 of [process_message] for a text message: the first send
    stands outside the [try], the loop and the extraction inside it.
    [None] is a loop that is still running after [fuel] passes. *)
Definition converse (available_tools : gmap string (tool Args)) (fuel : nat)
    (content : string) : M session (option string) :=
  bind (chat_send send_message (UserContent content))
    (fun r =>
       try_except
         (bind (react_loop send_message fuel available_tools r)
            (fun final => ret (final_text <$> final)))
         (fun _ => ret (Some "Lo siento, tuve un error técnico."))).

End Reply.

Arguments joined_text {Args} parts.
Arguments final_text {Args} r.
Arguments converse {Args session} send_message available_tools fuel content.

End Conversation.

(** ** The librarian ([src/agents/knowledge.py]) *)

Module Knowledge.
Import Text MoreText.





Section Librarian.

(** The model of the librarian: the text of its response, or the
    exception of the call. *)
Variable generate_content : string -> result string.


End Librarian.

(** The snippet of [search_vault] around the first occurrence of the
    query, for an ASCII content in which it occurs (one byte is then one
    character, at the same index in the content and in its lowercase). *)
Definition snippet (content query : string) : string :=
  let idx := find (lower content) (lower query) in
  let start := Z.max 0 (idx - 50) in
  let stop := Z.min (Z.of_nat (String.length content)) (idx + 100) in
  replace (slice content start stop) nl " ".

(** The loop of [search_vault] over the Markdown files of the vault, in
    the order [rglob] yields them, each with the text read from it. *)
Fixpoint search_matches (md_files : list (string * string)) (query : string)
  : list string :=
  match md_files with
  | [] => []
  | (file_path, content) :: rest =>
      if contains file_path "Internal" then search_matches rest query
      else if contains (lower content) (lower query) then
        ("- **" +:+ basename file_path +:+ "**: ..."
         +:+ snippet content query +:+ "...")
        :: search_matches rest query
      else search_matches rest query
  end.

Definition search_vault (md_files : list (string * string)) (query : string)
  : string :=
  let matches := search_matches md_files query in
  match matches with
  | [] => "No matches found for '" +:+ query +:+ "' in the Vault."
  | _ => "Found these related notes:" +:+ nl +:+ join nl (take 5 matches)
  end.

End Knowledge.

(** * Properties *)

Import Text.

(** ** Creating the tables *)

Lemma ensure_file_exists_present (fs : vault) (path : string) (now : clock) :
  is_Some (Finance._ensure_file_exists fs path now !! path).
Proof.
  unfold Finance._ensure_file_exists.
  destruct (fs !! path) eqn:E.
  - rewrite E. eauto.
  - rewrite lookup_insert_eq. eauto.
Qed.

Lemma ensure_tracker_exists_present (fs : vault) :
  is_Some (Goals._ensure_tracker_exists fs !! Goals.tracker_file).
Proof.
  unfold Goals._ensure_tracker_exists.
  destruct (fs !! Goals.tracker_file) eqn:E.
  - rewrite E. eauto.
  - rewrite lookup_insert_eq. eauto.
Qed.

(** C7. Ensuring a table twice is ensuring it once, whatever the clock
    shows at the second call, for the finance ledger and for the habit
    tracker; and a file that is already there, whatever it holds, is left
    as it is. *)
Theorem ensure_table_idempotent :
  forall (fs : vault) (path content : string) (now later : clock),
    Finance._ensure_file_exists (Finance._ensure_file_exists fs path now)
      path later
    = Finance._ensure_file_exists fs path now
    /\ Goals._ensure_tracker_exists (Goals._ensure_tracker_exists fs)
       = Goals._ensure_tracker_exists fs
    /\ Finance._ensure_file_exists (<[path := content]> fs) path now
       = <[path := content]> fs
    /\ Goals._ensure_tracker_exists (<[Goals.tracker_file := content]> fs)
       = <[Goals.tracker_file := content]> fs.
Proof.
  intros fs path content now later. repeat split.
  - destruct (ensure_file_exists_present fs path now) as [c Hc].
    unfold Finance._ensure_file_exists at 1. now rewrite Hc.
  - destruct (ensure_tracker_exists_present fs) as [c Hc].
    unfold Goals._ensure_tracker_exists at 1. now rewrite Hc.
  - unfold Finance._ensure_file_exists. now rewrite lookup_insert_eq.
  - unfold Goals._ensure_tracker_exists. now rewrite lookup_insert_eq.
Qed.

(** ** The tool-execution step *)

Section ToolStep.

Context {Args session : Type}.
Variable send_message :
  session -> Orchestrator.message -> session * result (Orchestrator.response Args).

Import Orchestrator.

Lemma execute_tool_unknown (tools : gmap string (tool Args))
    (name : string) (args : Args) (w : world session) :
  tools !! name = None ->
  execute_tool tools name args w
  = (w, Normal ("Error: Tool " +:+ name +:+ " not found.")).
Proof. intros H. unfold execute_tool. now rewrite H. Qed.

Lemma execute_tool_raising (tools : gmap string (tool Args))
    (name : string) (args : Args) (w : world session) (f : tool Args)
    (fs' : vault) (msg : string) :
  tools !! name = Some f ->
  f args (files w) = (fs', Raised msg) ->
  execute_tool tools name args w
  = ({| chat := chat w; files := fs' |},
     Normal ("Error executing tool: " +:+ msg)).
Proof.
  intros H Hf. unfold execute_tool. rewrite H.
  unfold try_except, invoke. now rewrite Hf.
Qed.


Lemma loop_body_sends (tools : gmap string (tool Args)) (r : response Args)
    (name : string) (args : Args) (w w' : world session) tool_result :
  first_function_call r = Some (name, args) ->
  execute_tool tools name args w = (w', Normal tool_result) ->
  loop_body send_message tools r w
  = bind (chat_send send_message (FunctionResponse name tool_result))
      (fun r' => ret (Some r')) w'.
Proof.
  intros Hfc Hex. unfold loop_body. rewrite Hfc.
  unfold bind at 1. now rewrite Hex.
Qed.

(** C5. A call to a tool that is not registered yields the not-found
    text for that name, and a registered tool that raises yields the error
    text carrying the message of the exception.  Either way the step ends
    normally, with the vault as the tool left it, and the loop body goes
    on to send that text to the model as the response of the function. *)
Theorem tool_failure_is_a_result (tools : gmap string (tool Args))
    (r : response Args) (name : string) (args : Args) (w : world session) :
  first_function_call r = Some (name, args) ->
  (tools !! name = None ->
   let tool_result := "Error: Tool " +:+ name +:+ " not found." in
   execute_tool tools name args w = (w, Normal tool_result)
   /\ loop_body send_message tools r w
      = bind (chat_send send_message (FunctionResponse name tool_result))
          (fun r' => ret (Some r')) w)
  /\ (forall (f : tool Args) (fs' : vault) (msg : string),
       tools !! name = Some f ->
       f args (files w) = (fs', Raised msg) ->
       let tool_result := "Error executing tool: " +:+ msg in
       let w' := {| chat := chat w; files := fs' |} in
       execute_tool tools name args w = (w', Normal tool_result)
       /\ loop_body send_message tools r w
          = bind (chat_send send_message (FunctionResponse name tool_result))
              (fun r' => ret (Some r')) w').
Proof.
  intros Hfc. split.
  - intros Hnone tool_result.
    pose proof (execute_tool_unknown tools name args w Hnone) as Hex.
    split; [exact Hex|].
    exact (loop_body_sends tools r name args w _ _ Hfc Hex).
  - intros f fs' msg Hf Hraise tool_result w'.
    pose proof (execute_tool_raising tools name args w f fs' msg Hf Hraise)
      as Hex.
    split; [exact Hex|].
    exact (loop_body_sends tools r name args w _ _ Hfc Hex).
Qed.

(** When the model answers the function response, the loop starts its
    next pass from that answer. *)
Lemma react_loop_next (fuel : nat) (tools : gmap string (tool Args))
    (r r' : response Args) (name : string) (args : Args)
    (w w' : world session) (tool_result : string) (c' : session) :
  first_function_call r = Some (name, args) ->
  execute_tool tools name args w = (w', Normal tool_result) ->
  send_message (chat w') (FunctionResponse name tool_result)
  = (c', Normal r') ->
  react_loop send_message (S fuel) tools r w
  = react_loop send_message fuel tools r' {| chat := c'; files := files w' |}.
Proof.
  intros Hfc Hex Hsend. cbn [react_loop]. unfold bind at 1.
  rewrite (loop_body_sends tools r name args w w' tool_result Hfc Hex).
  unfold bind, chat_send. rewrite Hsend. reflexivity.
Qed.

End ToolStep.

(** The step at a call of an unknown tool and at a call of a tool that
    raises, with a model that answers every message with a closing text. *)
Lemma tool_failure_is_a_result_witness :
  let send (c : nat) (m : Orchestrator.message) :=
    (S c, Normal
            [Orchestrator.Build_part "Done." (None : option (string * list string))]) in
  let w := Orchestrator.Build_world 0%nat Scenario.fresh_ledger in
  let call name :=
    [Orchestrator.Build_part "" (Some (name, ([] : list string)))] in
  Orchestrator.execute_tool Scenario.two_tools "send_email" [] w
  = (w, Normal "Error: Tool send_email not found.")
  /\ Orchestrator.execute_tool Scenario.two_tools "log_habit" [] w
     = (w, Normal
             ("Error executing tool: GoalsAgent.log_habit() missing 1 "
              +:+ "required positional argument: 'status'")).
Proof.
  intros send w call. split.
  - destruct (tool_failure_is_a_result send Scenario.two_tools
                (call "send_email") "send_email" [] w eq_refl)
      as [Hunknown _].
    apply Hunknown. reflexivity.
  - destruct (tool_failure_is_a_result send Scenario.two_tools
                (call "log_habit") "log_habit" [] w eq_refl)
      as [_ Hraising].
    apply (Hraising
             (fun _ fs =>
                (fs, Raised
                       ("GoalsAgent.log_habit() missing 1 required "
                        +:+ "positional argument: 'status'")))
             Scenario.fresh_ledger); reflexivity.
Defined.

(** ** Substring tests *)

Lemma startswith_append (s q p : string) :
  startswith s p = true -> startswith (s +:+ q) p = true.
Proof.
  revert s. induction p as [|b p IH]; intros s H; [reflexivity|].
  destruct s as [|a s]; [discriminate|].
  cbn [startswith] in H. apply andb_true_iff in H as [Ha Hs].
  change (String a s +:+ q) with (String a (s +:+ q)).
  cbn [startswith]. rewrite Ha. now apply IH.
Qed.

Lemma contains_append_after (s q sub : string) :
  contains s sub = true -> contains (s +:+ q) sub = true.
Proof.
  induction s as [|a s IH]; intros H.
  - destruct sub; [|discriminate].
    destruct q; reflexivity.
  - cbn [contains] in H. apply orb_true_iff in H as [H|H].
    + change (String a s +:+ q) with (String a (s +:+ q)).
      cbn [contains].
      change (String a (s +:+ q)) with (String a s +:+ q).
      rewrite (startswith_append _ q _ H). reflexivity.
    + change (String a s +:+ q) with (String a (s +:+ q)).
      cbn [contains]. rewrite (IH H). apply orb_true_r.
Qed.

Lemma contains_append_before (p s sub : string) :
  contains s sub = true -> contains (p +:+ s) sub = true.
Proof.
  intros H. induction p as [|a p IH]; [exact H|].
  change (String a p +:+ s) with (String a (p +:+ s)).
  cbn [contains]. rewrite IH. apply orb_true_r.
Qed.

(** ** The streak loop *)

Lemma count_streak_leading (habit : string) (lines : list string) (n : nat) :
  Goals.count_streak habit lines n
  = (n + Stated.leading Goals.has_success_mark
           (List.filter (fun line => contains line habit) lines))%nat.
Proof.
  revert n. induction lines as [|line rest IH]; intros n; cbn.
  - lia.
  - destruct (contains line habit); cbn.
    + destruct (Goals.has_success_mark line); [rewrite IH|]; lia.
    + apply IH.
Qed.

Lemma streak_as_stated (habit : string) (lines : list string) :
  Forall (fun line => Stated.told_apart habit line = true) lines ->
  Goals.count_streak habit lines 0 = Stated.streak habit lines.
Proof.
  intros H. rewrite count_streak_leading. unfold Stated.streak.
  induction H as [|line rest Hline _ IH]; [reflexivity|].
  unfold Stated.told_apart in Hline.
  apply andb_true_iff in Hline as [Hrow Hmark].
  apply Bool.eqb_prop in Hrow. cbn [List.filter]. rewrite Hrow.
  destruct (Stated.is_row_of habit line); [|exact IH].
  cbn [negb orb] in Hmark. apply Bool.eqb_prop in Hmark.
  cbn [Stated.leading]. rewrite Hmark.
  destruct (Stated.is_success_row line); [|reflexivity].
  cbn [Nat.add] in *. now rewrite IH.
Qed.

(** C2 (as amended). The streak that [log_habit] computes and reports is
    taken from the tracker as read, before the row of the present call is
    written.  On a tracker whose lines tell the rows of the habit and
    their success apart as the specification does, and for an ASCII
    status, it is the count of consecutive success-status rows for the
    habit among the rows already stored, most recent first, up to the
    first row of the habit whose status is no success; and it is 0 when
    the status being logged is no success.  So the third of three
    consecutive "Done" logs computes 2, and the last of Done, Done,
    Missed, Done computes 0. *)
Theorem streak_counts_rows_already_logged :
  (forall (fs : vault) (now : clock) (habit status bytes content : string),
      fs !! Goals.tracker_file = Some bytes ->
      Codec.read bytes = Normal content ->
      Codec.is_ascii status = true ->
      Forall (fun line => Stated.told_apart habit line = true)
        (split "010" content) ->
      let streak :=
        if Goals.is_success_status status
        then Stated.streak habit (rev (split "010" content))
        else 0%nat in
      Goals.streak_of content habit status = streak
      /\ snd (Goals.log_habit fs now habit status)
         = "Habit '" +:+ habit +:+ "' logged as " +:+ status +:+ ". "
           +:+ Goals.coach_comment streak status)
  /\ Goals.streak_of
       (Scenario.tracker_text
          (Scenario.tracker_after
             [("01", "Run", "Done"); ("02", "Run", "Done")]))
       "Run" "Done" = 2%nat
  /\ Goals.streak_of
       (Scenario.tracker_text
          (Scenario.tracker_after
             [("01", "Run", "Done"); ("02", "Run", "Done");
              ("03", "Run", "Missed")]))
       "Run" "Done" = 0%nat.
Proof.
  split; [|split].
  - intros fs now habit status bytes content Hfile Hread _ Hlines streak.
    assert (Hstreak : Goals.streak_of content habit status = streak).
    { unfold Goals.streak_of, streak.
      destruct (Goals.is_success_status status); [|reflexivity].
      apply streak_as_stated. now apply Forall_rev. }
    split; [exact Hstreak|].
    unfold Goals.log_habit. rewrite Hfile, Hread. cbn [snd].
    now rewrite Hstreak.
  - vm_compute. reflexivity.
  - vm_compute. reflexivity.
Qed.

(** The tracker after two "Done" logs of "Run", at the third: the streak
    stated for the rows already stored is 2, and the reply announces no
    streak of three days. *)
Lemma streak_counts_rows_already_logged_witness :
  let fs :=
    Scenario.tracker_after [("01", "Run", "Done"); ("02", "Run", "Done")] in
  Stated.streak "Run" (rev (split "010" (Scenario.tracker_text fs))) = 2%nat
  /\ snd (Goals.log_habit fs (Scenario.november "03" "08:00") "Run" "Done")
     = "Habit 'Run' logged as Done. Keep pushing.".
Proof.
  intros fs.
  destruct streak_counts_rows_already_logged as [Hgeneral _].
  destruct (Hgeneral fs (Scenario.november "03" "08:00") "Run" "Done"
              (Scenario.tracker_text fs) (Scenario.tracker_text fs))
    as [Hstreak Hreply].
  - vm_compute. reflexivity.
  - vm_compute. reflexivity.
  - vm_compute. reflexivity.
  - replace (split "010" (Scenario.tracker_text fs))
      with [ "# Habit Tracker 🏃"; "";
             "| Date | Habit | Status | Coach Comment |";
             "| :--- | :--- | :--- | :--- |"; "";
             "| 2025-11-01 | Run | Done | Keep pushing. |"; "";
             "| 2025-11-02 | Run | Done | Keep pushing. |"; "" ]
      by (vm_compute; reflexivity).
    repeat (apply List.Forall_cons; [vm_compute; reflexivity|]).
    apply List.Forall_nil.
  - split.
    + vm_compute. reflexivity.
    + rewrite Hreply. vm_compute. reflexivity.
Defined.

(** The third of three consecutive "Done" logs does not compute 3, and
    the last of Done, Done, Missed, Done does not compute 1. *)
Lemma streak_of_third_done_is_not_three :
  Goals.streak_of
    (Scenario.tracker_text
       (Scenario.tracker_after
          [("01", "Run", "Done"); ("02", "Run", "Done")]))
    "Run" "Done" <> 3%nat
  /\ Goals.streak_of
       (Scenario.tracker_text
          (Scenario.tracker_after
             [("01", "Run", "Done"); ("02", "Run", "Done");
              ("03", "Run", "Missed")]))
       "Run" "Done" <> 1%nat.
Proof. split; vm_compute; discriminate. Qed.

(** The reply to the third "Done" log announces no streak. *)
Lemma third_done_reply :
  let fs2 :=
    Scenario.tracker_after [("01", "Run", "Done"); ("02", "Run", "Done")] in
  snd (Goals.log_habit fs2 (Scenario.november "03" "08:00") "Run" "Done")
  = "Habit 'Run' logged as Done. Keep pushing.".
Proof. vm_compute. reflexivity. Qed.

(** C10. The streak loop finds the rows of a habit by looking for its
    name anywhere in the line.  So when the name of the habit occurs in
    the name of another one, a row logged for that other habit is never
    passed over by the loop: with a success mark it adds to the streak of
    the habit, without one it ends the streak. *)
Theorem streak_takes_rows_of_longer_named_habit
    (habit longer date_str status comment : string) (lines : list string)
    (streak : nat) :
  contains longer habit = true ->
  Goals.count_streak habit
    (Goals.habit_row date_str longer status comment :: lines) streak
  = if Goals.has_success_mark
         (Goals.habit_row date_str longer status comment)
    then Goals.count_streak habit lines (S streak)
    else streak.
Proof.
  intros H.
  assert (Hrow : contains (Goals.habit_row date_str longer status comment)
                   habit = true).
  { unfold Goals.habit_row.
    apply contains_append_before, contains_append_before,
      contains_append_before.
    now apply contains_append_after. }
  cbn [Goals.count_streak]. rewrite Hrow.
  now destruct (Goals.has_success_mark _).
Qed.

(** Rows of "Run 5k" and the streak of "Run": two "Done" rows of "Run 5k"
    give "Run" a streak of 2 in a tracker with no row of "Run", and a
    "Missed" row of "Run 5k" ends the streak that two "Done" rows of "Run"
    had built. *)
Lemma streak_takes_rows_of_longer_named_habit_witness :
  contains "Run 5k" "Run" = true
  /\ Goals.count_streak "Run"
       [Goals.habit_row "2025-11-02" "Run 5k" "Done" "Keep pushing.";
        Goals.habit_row "2025-11-01" "Run 5k" "Done" "Keep pushing."] 0
     = 2%nat
  /\ Goals.count_streak "Run"
       [Goals.habit_row "2025-11-03" "Run 5k" "Missed" "Keep pushing.";
        Goals.habit_row "2025-11-02" "Run" "Done" "Keep pushing.";
        Goals.habit_row "2025-11-01" "Run" "Done" "Keep pushing."] 0
     = 0%nat.
Proof.
  split; [reflexivity|]. split.
  - rewrite (streak_takes_rows_of_longer_named_habit "Run" "Run 5k"
               "2025-11-02" "Done" "Keep pushing." _ 0 eq_refl).
    reflexivity.
  - rewrite (streak_takes_rows_of_longer_named_habit "Run" "Run 5k"
               "2025-11-03" "Missed" "Keep pushing." _ 0 eq_refl).
    reflexivity.
Defined.

(** The same through [log_habit]: the streak computed for "Run" from
    trackers that the operation itself wrote. *)
Lemma run_5k_rows_in_the_streak_of_run :
  let only_5k :=
    Scenario.tracker_after [("01", "Run 5k", "Done"); ("02", "Run 5k", "Done")] in
  let broken :=
    Scenario.tracker_after
      [("01", "Run", "Done"); ("02", "Run", "Done"); ("03", "Run 5k", "Missed")] in
  Forall (fun line => Stated.is_row_of "Run" line = false)
    (splitlines (Scenario.tracker_text only_5k))
  /\ Goals.streak_of (Scenario.tracker_text only_5k) "Run" "Done" = 2%nat
  /\ Goals.streak_of (Scenario.tracker_text broken) "Run" "Done" = 0%nat.
Proof.
  split; [|split].
  - vm_compute. repeat constructor.
  - vm_compute. reflexivity.
  - vm_compute. reflexivity.
Qed.

(** ** The scan of the fuzzy deletion *)






(** What one pass of the scan does to the retained index. *)
Lemma scan_step (cl : string) (num : option string) (line : string)
    (rest : list string) (i mi : Z) :
  Finance.scan cl num (line :: rest) i mi
  = Finance.scan cl num rest (i + 1)
      (if negb (Finance.is_skipped line)
          && (Finance.number_hit num (lower line) || contains (lower line) cl)
       then i else mi).
Proof.
  cbn [Finance.scan].
  destruct (Finance.is_skipped line); [reflexivity|].
  destruct (Finance.number_hit num (lower line)); [reflexivity|].
  now destruct (contains (lower line) cl).
Qed.

Lemma scan_without_match (cl : string) (num : option string)
    (lines : list string) (i mi : Z) :
  Forall (fun line =>
            negb (Finance.is_skipped line)
            && (Finance.number_hit num (lower line)
                || contains (lower line) cl) = false) lines ->
  Finance.scan cl num lines i mi = mi.
Proof.
  intros H. revert i. induction H as [|line rest Hline _ IH]; intros i.
  - reflexivity.
  - rewrite scan_step, Hline. apply IH.
Qed.

Lemma scan_last_match (cl : string) (num : option string)
    (pre : list string) (row : string) (post : list string) (i mi : Z) :
  negb (Finance.is_skipped row)
  && (Finance.number_hit num (lower row) || contains (lower row) cl) = true ->
  Forall (fun line =>
            negb (Finance.is_skipped line)
            && (Finance.number_hit num (lower line)
                || contains (lower line) cl) = false) post ->
  Finance.scan cl num (pre ++ row :: post) i mi
  = (i + Z.of_nat (length pre))%Z.
Proof.
  intros Hrow Hpost. revert i mi.
  induction pre as [|line pre IH]; intros i mi.
  - cbn [app length]. rewrite scan_step, Hrow.
    rewrite scan_without_match by exact Hpost. lia.
  - cbn [app length]. rewrite scan_step, IH. lia.
Qed.





(** In that ledger the first row does match as stated, and stays. *)
Lemma coffee_rows_after_delete :
  let fs := Scenario.ledger Scenario.coffees in
  let now := Scenario.november "03" "10:00" in
  Stated.row_matches "coffee"
    "| 2025-11-03 09:00 | Expense | General | coffee beans | 5.0 | USD |"
  = true
  /\ (map (fun r => Finance.field r "Description")
        ∘ Finance._parse_markdown_table) <$>
       (fst (Finance.delete_specific_transaction fs now "coffee")
          !! Finance._get_current_month_file now)
     = Some ["coffee beans"].
Proof. split; vm_compute; reflexivity. Qed.

(** ** Deleting with no ledger, or with no rows *)




(** A ledger that does not decode is left as it is, and the error of the
    read is the reply. *)
Lemma delete_undecodable (fs : vault) (now : clock)
    (criteria bytes e : string) :
  fs !! Finance._get_current_month_file now = Some bytes ->
  Codec.read bytes = Raised e ->
  Finance.delete_specific_transaction fs now criteria
  = (fs, "Failed to delete transaction: " +:+ e).
Proof.
  intros Hfile Hread. unfold Finance.delete_specific_transaction.
  now rewrite Hfile, Hread.
Qed.



Lemma delete_without_unskipped_line (fs : vault) (now : clock)
    (criteria bytes content : string) :
  fs !! Finance._get_current_month_file now = Some bytes ->
  Codec.read bytes = Normal content ->
  Forall (fun line => Finance.is_skipped line = true) (splitlines content) ->
  Finance.delete_specific_transaction fs now criteria
  = (fs, "No matching transaction found for '" +:+ criteria +:+ "'.").
Proof.
  intros Hfile Hread Hskip. unfold Finance.delete_specific_transaction.
  rewrite Hfile, Hread. unfold Finance.find_match.
  rewrite scan_without_match; [reflexivity|].
  eapply Forall_impl; [exact Hskip|]. intros line Hline. cbn beta in *.
  now rewrite Hline.
Qed.

Lemma last_data_line_found (pre : list string) (row : string)
    (post : list string) :
  Finance.is_data_line row = true ->
  Forall (fun line => Finance.is_data_line line = false) post ->
  Finance.last_data_line (pre ++ row :: post) (length (pre ++ row :: post))
  = Some (length pre).
Proof.
  intros Hrow Hpost.
  induction post as [|line post IH] using rev_ind.
  - rewrite length_app. cbn [length]. rewrite Nat.add_1_r.
    cbn [Finance.last_data_line].
    rewrite list_lookup_middle by reflexivity. now rewrite Hrow.
  - apply Forall_app in Hpost as [Hpost Hline].
    apply Forall_cons in Hline as [Hline _].
    replace (pre ++ row :: post ++ [line])
      with ((pre ++ row :: post) ++ [line])
      by now rewrite <- app_assoc.
    rewrite length_app. cbn [length]. rewrite Nat.add_1_r.
    cbn [Finance.last_data_line].
    rewrite list_lookup_middle by reflexivity. rewrite Hline.
    specialize (IH Hpost). clear Hrow Hpost Hline.
    remember (pre ++ row :: post) as lines eqn:E. clear E.
    revert IH. generalize (length lines) as n.
    induction n as [|i IHn]; intros H; [discriminate|].
    cbn [Finance.last_data_line] in *.
    destruct (lines !! i) as [l|] eqn:E; [|discriminate].
    rewrite (lookup_app_l_Some _ _ _ _ E).
    destruct (Finance.is_data_line l); [exact H|]. now apply IHn.
Qed.

(** The undo removes the last data line, whatever it holds. *)
Lemma undo_removes_last_data_line (fs : vault) (now : clock)
    (bytes content : string) (pre : list string) (row : string)
    (post : list string) :
  fs !! Finance._get_current_month_file now = Some bytes ->
  Codec.read bytes = Normal content ->
  splitlines content = pre ++ row :: post ->
  Finance.is_data_line row = true ->
  Forall (fun line => Finance.is_data_line line = false) post ->
  Finance.undo_last_transaction fs now
  = (Finance.write_lines fs (Finance._get_current_month_file now)
       (pre ++ post),
     "Undid last transaction: " +:+ row).
Proof.
  intros Hfile Hread Hlines Hrow Hpost. unfold Finance.undo_last_transaction.
  rewrite Hfile, Hread, Hlines, (last_data_line_found pre row post Hrow Hpost).
  rewrite list_lookup_middle by reflexivity. now rewrite delete_middle.
Qed.

(** ** Lines of the front matter in the scan *)

(** C3 (the code at the failing input). On a ledger that was just
    created, the criteria "active" makes the deletion remove the line
    "status: active" of the front matter, which is no data line; the
    criteria "11" removes the line "created: 2025-11-03". *)
Theorem delete_takes_front_matter_line :
  let now := Scenario.november "03" "09:00" in
  let path := Finance._get_current_month_file now in
  Finance.is_data_line "status: active" = false
  /\ Finance.is_skipped "status: active" = false
  /\ snd (Finance.delete_specific_transaction Scenario.fresh_ledger now "active")
     = "Successfully deleted transaction: status: active"
  /\ splitlines <$>
       (fst (Finance.delete_specific_transaction Scenario.fresh_ledger now
               "active") !! path)
     = Some [ "---"; "type: finance_log"; "created: 2025-11-03"; "---"; "";
              "# Financial Log: November 2025"; "";
              Finance.header_row; Finance.separator_row ]
  /\ snd (Finance.delete_specific_transaction Scenario.fresh_ledger now "11")
     = "Successfully deleted transaction: created: 2025-11-03".
Proof. repeat split; vm_compute; reflexivity. Qed.

(** C6 (the code at the failing input). The ledger that was just created
    has no data row: the table parses to no record and the undo finds
    nothing to remove.  The deletion with the criteria "active" still
    reports a deleted transaction, where a not-found reply is due. *)
Theorem delete_on_ledger_without_rows_finds_a_line :
  let now := Scenario.november "03" "09:00" in
  let path := Finance._get_current_month_file now in
  Finance._parse_markdown_table <$> (Scenario.fresh_ledger !! path) = Some []
  /\ Forall (fun line => Finance.is_data_line line = false)
       (splitlines (default "" (Scenario.fresh_ledger !! path)))
  /\ snd (Finance.undo_last_transaction Scenario.fresh_ledger now)
     = "No transactions found to undo."
  /\ snd (Finance.delete_specific_transaction Scenario.fresh_ledger now "active")
     = "Successfully deleted transaction: status: active".
Proof.
  repeat split; try (vm_compute; reflexivity).
  vm_compute. repeat constructor.
Qed.

(** ** The number of the criteria and the Date column *)


(** ** The update loop of the habit tracker *)

(** With no row of that day and habit that the loop takes, the loop ends
    without an update and the row is appended. *)
Lemma update_row_none (lines : list string) (date_str habit new_row : string) :
  Forall (fun line =>
            negb (Goals.is_passed line) && Goals.has_key line date_str habit
            = false) lines ->
  Goals.updated_lines lines date_str habit new_row
  = Goals.append_row lines new_row.
Proof.
  intros H. unfold Goals.updated_lines.
  assert (Hnone : Goals.update_row lines date_str habit new_row = None).
  { induction H as [|line rest Hline _ IH]; [reflexivity|].
    cbn [Goals.update_row].
    destruct (Goals.is_passed line); [now rewrite IH|].
    cbn [negb andb] in Hline. now rewrite Hline, IH. }
  now rewrite Hnone.
Qed.

(** The first row of that day and habit that the loop takes is replaced
    where it stands, and nothing else changes. *)
Lemma update_row_replaces (pre : list string) (line : string)
    (post : list string) (date_str habit new_row : string) :
  Forall (fun l =>
            negb (Goals.is_passed l) && Goals.has_key l date_str habit
            = false) pre ->
  Goals.is_passed line = false ->
  Goals.has_key line date_str habit = true ->
  Goals.updated_lines (pre ++ line :: post) date_str habit new_row
  = pre ++ new_row :: post.
Proof.
  intros Hpre Hline Hkey. unfold Goals.updated_lines.
  assert (Hsome : Goals.update_row (pre ++ line :: post) date_str habit new_row
                  = Some (pre ++ new_row :: post)).
  { induction Hpre as [|l pre Hl _ IH].
    - cbn [app Goals.update_row]. now rewrite Hline, Hkey.
    - cbn [app Goals.update_row].
      destruct (Goals.is_passed l); [now rewrite IH|].
      cbn [negb andb] in Hl. now rewrite Hl, IH. }
  now rewrite Hsome.
Qed.

(** ** Logging a habit twice on one day *)

(** The second log of a day replaces the row of the first. *)
Lemma second_log_of_run_replaces_the_row :
  splitlines
    (Scenario.tracker_text
       (Scenario.log
          (Scenario.log (Goals._ensure_tracker_exists ∅) "03" "Run" "Done")
          "03" "Run" "Missed"))
  = [ "# Habit Tracker 🏃"; "";
      "| Date | Habit | Status | Coach Comment |";
      "| :--- | :--- | :--- | :--- |"; "";
      "| 2025-11-03 | Run | Missed | ⚠️ Don't let this slide. |" ].
Proof. vm_compute. reflexivity. Qed.

(** C8 (the code at the failing input). The habit "Date night" logged
    twice on one day: the update loop passes over the row of the first
    log, because "Date" occurs in it, and the second log is appended.  The
    tracker then holds two rows of that day and habit. *)
Theorem second_log_of_date_night_is_appended :
  let row := "| 2025-11-03 | Date night | Done | Keep pushing. |" in
  Goals.is_passed row = true
  /\ Goals.has_key row "2025-11-03" "Date night" = true
  /\ splitlines
       (Scenario.tracker_text
          (Scenario.log
             (Scenario.log (Goals._ensure_tracker_exists ∅)
                "03" "Date night" "Done")
             "03" "Date night" "Done"))
     = [ "# Habit Tracker 🏃"; "";
         "| Date | Habit | Status | Coach Comment |";
         "| :--- | :--- | :--- | :--- |"; ""; row; ""; row ].
Proof. repeat split; vm_compute; reflexivity. Qed.

(** ** Splitting and joining *)

Lemma append_assoc (a b c : string) : (a +:+ b) +:+ c = a +:+ (b +:+ c).
Proof.
  induction a as [|x a IH]; [reflexivity|].
  change ((String x a +:+ b) +:+ c) with (String x ((a +:+ b) +:+ c)).
  now rewrite IH.
Qed.

Lemma append_empty (a : string) : a +:+ "" = a.
Proof.
  induction a as [|x a IH]; [reflexivity|].
  change (String x a +:+ "") with (String x (a +:+ "")). now rewrite IH.
Qed.

Lemma is_empty_append (a b : string) :
  is_empty b = false -> is_empty (a +:+ b) = false.
Proof. destruct a; [trivial|reflexivity]. Qed.

Lemma contains_char_cons (a c : ascii) (s : string) :
  contains (String a s) (String c "")
  = Ascii.eqb a c || contains s (String c "").
Proof. cbn [contains startswith]. now rewrite andb_true_r. Qed.

Lemma contains_char_append (a b : string) (c : ascii) :
  contains (a +:+ b) (String c "")
  = contains a (String c "") || contains b (String c "").
Proof.
  induction a as [|x a IH].
  - change ("" +:+ b) with b. destruct b; reflexivity.
  - change (String x a +:+ b) with (String x (a +:+ b)).
    rewrite !contains_char_cons, IH. apply orb_assoc.
Qed.

Lemma split_append_sep (sep : ascii) (s t : string) :
  contains s (String sep "") = false ->
  split sep (s +:+ String sep t) = s :: split sep t.
Proof.
  induction s as [|a s IH]; intros H.
  - change ("" +:+ String sep t) with (String sep t).
    cbn [split]. now rewrite Ascii.eqb_refl.
  - rewrite contains_char_cons in H. apply orb_false_iff in H as [Ha Hs].
    change (String a s +:+ String sep t) with (String a (s +:+ String sep t)).
    cbn [split]. now rewrite Ha, (IH Hs).
Qed.

Lemma unlines_app (l1 l2 : list string) :
  unlines (l1 ++ l2) = unlines l1 +:+ unlines l2.
Proof.
  induction l1 as [|x l1 IH]; [reflexivity|].
  cbn [app unlines fold_right]. fold (unlines (l1 ++ l2)). fold (unlines l1).
  now rewrite IH, !append_assoc.
Qed.

Lemma join_unlines (x : string) (l : list string) :
  join nl (x :: l) +:+ nl = unlines (x :: l).
Proof.
  revert x. induction l as [|y l IH]; intros x.
  - reflexivity.
  - change (join nl (x :: y :: l)) with (x +:+ nl +:+ join nl (y :: l)).
    rewrite !append_assoc, IH. reflexivity.
Qed.

Lemma split_unlines (lines : list string) :
  Forall (fun line => contains line nl = false) lines ->
  split "010" (unlines lines) = lines ++ [""].
Proof.
  induction 1 as [|line lines Hline _ IH]; [reflexivity|].
  cbn [unlines fold_right]. fold (unlines lines).
  change (nl +:+ unlines lines) with (String "010" (unlines lines)).
  now rewrite (split_append_sep "010" line _ Hline), IH.
Qed.

(** ** Stripping *)

Lemma strip_head (a : ascii) (s : string) :
  is_space a = false -> strip (String a s) = String a (rstrip s).
Proof.
  intros H. unfold strip. cbn [lstrip]. rewrite H.
  cbn [rstrip]. now rewrite H.
Qed.

Lemma lstrip_length (s : string) : String.length (lstrip s) <= String.length s.
Proof.
  induction s as [|a s IH]; [reflexivity|].
  cbn [lstrip]. destruct (is_space a); cbn [String.length]; lia.
Qed.

Lemma rstrip_length (s : string) : String.length (rstrip s) <= String.length s.
Proof.
  induction s as [|a s IH]; [reflexivity|].
  cbn [rstrip]. destruct (is_space a && is_empty (rstrip s));
    cbn [String.length]; lia.
Qed.

Lemma rstrip_append_space (s : string) : rstrip (s +:+ " ") = rstrip s.
Proof.
  induction s as [|a s IH]; [reflexivity|].
  change (String a s +:+ " ") with (String a (s +:+ " ")).
  cbn [rstrip]. now rewrite IH.
Qed.

(** A text that ends as it should stays as it is under any prefix. *)
Lemma rstrip_keeps (a b : string) :
  rstrip b = b -> is_empty b = false ->
  rstrip (a +:+ b) = a +:+ b.
Proof.
  intros Hb Hne. induction a as [|x a IH]; [exact Hb|].
  change (String x a +:+ b) with (String x (a +:+ b)).
  cbn [rstrip]. rewrite IH, (is_empty_append a b Hne).
  now rewrite andb_false_r.
Qed.

(** A stripped, non-empty text starts with no whitespace. *)
Lemma stripped_head (c : string) :
  strip c = c -> is_empty c = false ->
  exists a c', c = String a c' /\ is_space a = false.
Proof.
  intros Hs Hne. destruct c as [|a c']; [discriminate|].
  exists a, c'. split; [reflexivity|].
  destruct (is_space a) eqn:Ha; [|reflexivity].
  exfalso. unfold strip in Hs. cbn [lstrip] in Hs. rewrite Ha in Hs.
  pose proof (rstrip_length (lstrip c')) as H1.
  pose proof (lstrip_length c') as H2.
  rewrite Hs in H1. cbn [String.length] in H1. lia.
Qed.

Lemma strip_padded (c : string) :
  strip c = c -> is_empty c = false -> strip (" " +:+ c +:+ " ") = c.
Proof.
  intros Hs Hne.
  destruct (stripped_head c Hs Hne) as (a & c' & -> & Ha).
  pose proof Hs as Hr. rewrite (strip_head a c' Ha) in Hr.
  change (" " +:+ String a c' +:+ " ") with (String " " (String a (c' +:+ " "))).
  unfold strip. cbn [lstrip]. change (is_space " ") with true. cbn iota.
  rewrite Ha.
  change (String a (c' +:+ " ")) with (String a c' +:+ " ").
  rewrite rstrip_append_space. cbn [rstrip]. rewrite Ha. exact Hr.
Qed.

(** ** Reading what a file holds *)

Lemma is_ascii_append (a b : string) :
  Codec.is_ascii (a +:+ b) = Codec.is_ascii a && Codec.is_ascii b.
Proof.
  induction a as [|x a IH]; [reflexivity|].
  change (String x a +:+ b) with (String x (a +:+ b)).
  cbn [Codec.is_ascii]. now rewrite IH, andb_assoc.
Qed.

Lemma utf8_run_append (st : Codec.utf8_state) (a b : string) :
  Codec.utf8_run st (a +:+ b)
  = match Codec.utf8_run st a with
    | Some st' => Codec.utf8_run st' b
    | None => None
    end.
Proof.
  revert st. induction a as [|x a IH]; intros st; [reflexivity|].
  change (String x a +:+ b) with (String x (a +:+ b)).
  cbn [Codec.utf8_run].
  destruct (Codec.utf8_step st x); [apply IH|reflexivity].
Qed.

Lemma utf8_valid_run (s : string) :
  Codec.utf8_valid s = true
  <-> Codec.utf8_run Codec.Start s = Some Codec.Start.
Proof.
  unfold Codec.utf8_valid.
  destruct (Codec.utf8_run Codec.Start s) as [[|lo hi more]|];
    split; congruence.
Qed.

(** Two texts one after the other are a text. *)
Lemma utf8_valid_append (a b : string) :
  Codec.utf8_valid a = true -> Codec.utf8_valid b = true ->
  Codec.utf8_valid (a +:+ b) = true.
Proof.
  intros Ha Hb. apply utf8_valid_run in Ha, Hb. apply utf8_valid_run.
  now rewrite utf8_run_append, Ha.
Qed.

Lemma is_ascii_valid (s : string) :
  Codec.is_ascii s = true -> Codec.utf8_valid s = true.
Proof.
  intros H. apply utf8_valid_run.
  induction s as [|a s IH]; [reflexivity|].
  cbn [Codec.is_ascii] in H. apply andb_true_iff in H as [Ha Hs].
  cbn [Codec.utf8_run]. cbv beta iota zeta delta [Codec.utf8_step].
  rewrite Ha. now apply IH.
Qed.

Lemma utf8_scan_valid (st : Codec.utf8_state) (lead : ascii)
    (start i : nat) (s : string) :
  Codec.utf8_run st s = Some Codec.Start ->
  Codec.utf8_scan st lead start i s = None.
Proof.
  revert st lead start i. induction s as [|a s IH]; intros st lead start i H.
  - cbn [Codec.utf8_run] in H. injection H as ->. reflexivity.
  - cbn [Codec.utf8_run] in H. cbn [Codec.utf8_scan].
    destruct (Codec.utf8_step st a) as [st'|]; [|discriminate].
    destruct st; now apply IH.
Qed.

(** What is well-formed UTF-8 is read without an error. *)
Lemma read_valid (bytes : string) :
  Codec.utf8_valid bytes = true ->
  Codec.read bytes = Normal (Codec.newlines bytes).
Proof.
  intros H. apply utf8_valid_run in H. unfold Codec.read.
  now rewrite utf8_scan_valid.
Qed.

Lemma newlines_without_cr (s : string) :
  contains s (String "013" "") = false -> Codec.newlines s = s.
Proof.
  induction s as [|a s IH]; [reflexivity|].
  rewrite contains_char_cons. intros H.
  apply orb_false_iff in H as [Ha Hs].
  cbn [Codec.newlines]. rewrite Ha. now rewrite (IH Hs).
Qed.

Lemma one_line_inv (s : string) :
  Codec.one_line s = true ->
  Codec.utf8_valid s = true /\ contains s nl = false
  /\ contains s (String "013" "") = false.
Proof.
  unfold Codec.one_line. intros H.
  apply andb_true_iff in H as [H Hcr]. apply andb_true_iff in H as [Ha Hnl].
  apply negb_true_iff in Hnl, Hcr. auto.
Qed.

Lemma one_line_append (a b : string) :
  Codec.one_line a = true -> Codec.one_line b = true ->
  Codec.one_line (a +:+ b) = true.
Proof.
  intros Ha Hb.
  destruct (one_line_inv a Ha) as (Ha1 & Ha2 & Ha3).
  destruct (one_line_inv b Hb) as (Hb1 & Hb2 & Hb3).
  unfold Codec.one_line, nl in *.
  now rewrite (utf8_valid_append a b Ha1 Hb1), !contains_char_append, Ha2, Ha3,
    Hb2, Hb3.
Qed.

(** Texts on one line, each closed by a newline, are read as they were
    written. *)
Lemma read_text_lines (lines : list string) :
  Forall (fun line => Codec.one_line line = true) lines ->
  Codec.read (unlines lines) = Normal (unlines lines).
Proof.
  intros H.
  assert (Htext : Codec.utf8_valid (unlines lines) = true
                  /\ contains (unlines lines) (String "013" "") = false).
  { induction H as [|line rest Hline _ [IH1 IH2]]; [split; reflexivity|].
    destruct (one_line_inv line Hline) as (H1 & _ & H3).
    cbn [unlines fold_right]. fold (unlines rest). unfold nl. split.
    - apply utf8_valid_append; [exact H1|]. now apply utf8_valid_append.
    - now rewrite !contains_char_append, H3, IH2. }
  destruct Htext as [Hvalid Hcr].
  rewrite read_valid by exact Hvalid.
  now rewrite newlines_without_cr.
Qed.

(** ** Rows of a table *)

Lemma table_row_cons (c : string) (cs : list string) :
  table_row (c :: cs) = "| " +:+ c +:+ " " +:+ table_row cs.
Proof. reflexivity. Qed.

Lemma table_row_not_empty (cs : list string) : is_empty (table_row cs) = false.
Proof. reflexivity. Qed.

Lemma rstrip_table_row (cs : list string) : rstrip (table_row cs) = table_row cs.
Proof.
  induction cs as [|c cs IH]; [reflexivity|].
  rewrite table_row_cons.
  assert (H1 : rstrip (" " +:+ table_row cs) = " " +:+ table_row cs)
    by (apply rstrip_keeps; [exact IH|apply table_row_not_empty]).
  assert (H2 : rstrip (c +:+ " " +:+ table_row cs) = c +:+ " " +:+ table_row cs)
    by (apply rstrip_keeps; [exact H1|reflexivity]).
  apply rstrip_keeps; [exact H2|].
  apply is_empty_append. reflexivity.
Qed.

Lemma strip_table_row (cs : list string) : strip (table_row cs) = table_row cs.
Proof.
  unfold strip.
  change (lstrip (table_row cs)) with (table_row cs).
  apply rstrip_table_row.
Qed.

Lemma valid_cell_inv (c : string) :
  Finance.valid_cell c = true ->
  is_empty c = false /\ strip c = c
  /\ contains c "|" = false /\ Codec.one_line c = true.
Proof.
  unfold Finance.valid_cell, truthy. intros H.
  apply andb_true_iff in H as [H Hbar]. apply andb_true_iff in H as [H Hs].
  apply andb_true_iff in H as [H Hline].
  apply andb_true_iff in H as [Hne _].
  apply negb_true_iff in Hne, Hbar. apply String.eqb_eq in Hs.
  auto.
Qed.

Lemma split_row_body (cs : list string) :
  Forall (fun c => contains c "|" = false) cs ->
  split "|" (fold_right (fun c rest => " " +:+ c +:+ " |" +:+ rest) "" cs)
  = map (fun c => " " +:+ c +:+ " ") cs ++ [""].
Proof.
  induction 1 as [|c cs Hc _ IH]; [reflexivity|].
  cbn [fold_right map app].
  set (body := fold_right (fun c rest => " " +:+ c +:+ " |" +:+ rest) "" cs)
    in *.
  replace (" " +:+ c +:+ " |" +:+ body)
    with ((" " +:+ c +:+ " ") +:+ String "|" body)
    by (now rewrite !append_assoc).
  rewrite split_append_sep, IH; [reflexivity|].
  rewrite !contains_char_append, Hc. reflexivity.
Qed.

Lemma cells_table_row (cs : list string) :
  Forall (fun c => Finance.valid_cell c = true) cs ->
  cells (table_row cs) = cs.
Proof.
  intros H. unfold cells, table_row.
  change ("|" +:+ ?body) with (String "|" body).
  cbn [split]. change (Ascii.eqb "|" "|") with true. cbn iota.
  rewrite split_row_body.
  2:{ eapply Forall_impl; [exact H|]. intros c Hc.
      now destruct (valid_cell_inv c Hc) as (_ & _ & Hbar & _). }
  cbn [map List.filter]. change (truthy (strip "")) with false. cbn iota.
  induction H as [|c cs Hc _ IH]; [reflexivity|].
  destruct (valid_cell_inv c Hc) as (Hne & Hs & _ & _).
  cbn [map app List.filter]. rewrite (strip_padded c Hs Hne).
  unfold truthy at 1. rewrite Hne. cbn [negb]. now rewrite IH.
Qed.

Lemma table_row_one_line (cs : list string) :
  Forall (fun c => Finance.valid_cell c = true) cs ->
  Codec.one_line (table_row cs) = true.
Proof.
  induction 1 as [|c cs Hc _ IH]; [reflexivity|].
  destruct (valid_cell_inv c Hc) as (_ & _ & _ & Hline).
  rewrite table_row_cons.
  repeat (apply one_line_append; try assumption); reflexivity.
Qed.

(** ** Parsing the table *)

Lemma parse_lines_passes (raw : string) (rest headers : list string) :
  is_empty (strip raw) || negb (startswith (strip raw) "|") = true ->
  Finance.parse_lines (raw :: rest) headers = Finance.parse_lines rest headers.
Proof. intros H. cbn [Finance.parse_lines]. now rewrite H. Qed.

Lemma parse_lines_passes_text (a : ascii) (s : string)
    (rest headers : list string) :
  is_space a = false -> Ascii.eqb a "|" = false ->
  Finance.parse_lines (String a s :: rest) headers
  = Finance.parse_lines rest headers.
Proof.
  intros Ha Hbar. apply parse_lines_passes.
  rewrite (strip_head a s Ha). cbn [is_empty startswith].
  now rewrite Hbar.
Qed.

Lemma parse_lines_row (cs headers rest : list string) :
  length headers <> 0%nat ->
  length cs = length headers ->
  Forall (fun c => Finance.valid_cell c = true) cs ->
  contains (table_row cs) ":---" = false ->
  Finance.parse_lines (table_row cs :: rest) headers
  = dict (combine headers cs) :: Finance.parse_lines rest headers.
Proof.
  intros Hh Hlen Hcs Hsep. cbn [Finance.parse_lines].
  rewrite strip_table_row, table_row_not_empty.
  change (startswith (table_row cs) "|") with true. cbn [negb orb].
  apply Nat.eqb_neq in Hh. rewrite Hh, andb_false_r, Hsep. cbn [negb].
  rewrite (cells_table_row cs Hcs), Hlen, Nat.eqb_refl. reflexivity.
Qed.

Lemma parse_header_row (rest : list string) :
  Finance.parse_lines (Finance.header_row :: rest) []
  = Finance.parse_lines rest Finance.columns.
Proof.
  transitivity (Finance.parse_lines rest (cells Finance.header_row)).
  - cbn [Finance.parse_lines].
    replace (strip Finance.header_row) with Finance.header_row
      by (vm_compute; reflexivity).
    replace (is_empty Finance.header_row) with false
      by (vm_compute; reflexivity).
    replace (startswith Finance.header_row "|") with true
      by (vm_compute; reflexivity).
    replace (contains Finance.header_row "Date") with true
      by (vm_compute; reflexivity).
    reflexivity.
  - replace (cells Finance.header_row) with Finance.columns
      by (vm_compute; reflexivity).
    reflexivity.
Qed.

Lemma parse_separator_row (rest : list string) :
  Finance.parse_lines (Finance.separator_row :: rest) Finance.columns
  = Finance.parse_lines rest Finance.columns.
Proof.
  cbn [Finance.parse_lines].
  replace (strip Finance.separator_row) with Finance.separator_row
    by (vm_compute; reflexivity).
  replace (is_empty Finance.separator_row) with false
    by (vm_compute; reflexivity).
  replace (startswith Finance.separator_row "|") with true
    by (vm_compute; reflexivity).
  replace (contains Finance.separator_row ":---") with true
    by (vm_compute; reflexivity).
  cbn [negb orb]. rewrite andb_false_r. reflexivity.
Qed.

Lemma parse_header_lines (now : clock) (rest : list string) :
  Finance.parse_lines (Finance.header_lines now ++ rest) []
  = Finance.parse_lines rest Finance.columns.
Proof.
  unfold Finance.header_lines. cbn [app].
  rewrite (parse_lines_passes "---") by (vm_compute; reflexivity).
  rewrite (parse_lines_passes "type: finance_log")
    by (vm_compute; reflexivity).
  rewrite (parse_lines_passes "status: active") by (vm_compute; reflexivity).
  change ("created: " +:+ ymd now) with (String "c" ("reated: " +:+ ymd now)).
  rewrite parse_lines_passes_text by (vm_compute; reflexivity).
  rewrite (parse_lines_passes "---") by (vm_compute; reflexivity).
  rewrite (parse_lines_passes "") by (vm_compute; reflexivity).
  change ("# Financial Log: " +:+ month_year now)
    with (String "#" (" Financial Log: " +:+ month_year now)).
  rewrite parse_lines_passes_text by (vm_compute; reflexivity).
  rewrite (parse_lines_passes "") by (vm_compute; reflexivity).
  rewrite parse_header_row. apply parse_separator_row.
Qed.

Lemma parse_rows (calls : list Finance.call) (rest : list string) :
  Forall (fun c => Finance.well_formed c = true) calls ->
  Finance.parse_lines (map Finance.row_of calls ++ rest) Finance.columns
  = map Finance.record_of calls ++ Finance.parse_lines rest Finance.columns.
Proof.
  induction 1 as [|c calls Hc _ IH]; [reflexivity|].
  cbn [map app]. unfold Finance.well_formed in Hc.
  apply andb_true_iff in Hc as [Hc _].
  apply andb_true_iff in Hc as [Hcells Hsep].
  apply negb_true_iff in Hsep.
  change (Finance.row_of c)
    with (table_row
            [ stamp (Finance.at_time c); Finance.type c;
              Finance.infer_category (Finance.category c)
                (Finance.description c);
              Finance.description c; Finance.amount c; Finance.currency c ])
    in *.
  rewrite parse_lines_row, IH; [reflexivity|discriminate|reflexivity| |exact Hsep].
  rewrite forallb_forall in Hcells. apply List.Forall_forall. exact Hcells.
Qed.

(** ** What the ledger holds after a run of calls *)

Lemma row_one_line (c : Finance.call) :
  Finance.well_formed c = true -> Codec.one_line (Finance.row_of c) = true.
Proof.
  unfold Finance.well_formed. intros H.
  apply andb_true_iff in H as [H _].
  apply andb_true_iff in H as [Hcells _].
  apply (table_row_one_line
           [ stamp (Finance.at_time c); Finance.type c;
             Finance.infer_category (Finance.category c)
               (Finance.description c);
             Finance.description c; Finance.amount c; Finance.currency c ]).
  rewrite forallb_forall in Hcells. apply List.Forall_forall. exact Hcells.
Qed.

Lemma log_call_content (fs : vault) (now : clock) (c : Finance.call)
    (rows : list string) :
  ym (Finance.at_time c) = ym now ->
  fs !! Finance._get_current_month_file now
  = Some (Finance.header now +:+ unlines rows) ->
  Finance.log_call fs c !! Finance._get_current_month_file now
  = Some (Finance.header now +:+ unlines (rows ++ [Finance.row_of c])).
Proof.
  intros Hym Hfile.
  unfold Finance.log_call, Finance.log_transaction. cbn [fst].
  replace (Finance._get_current_month_file (Finance.at_time c))
    with (Finance._get_current_month_file now)
    by (unfold Finance._get_current_month_file; now rewrite Hym).
  unfold Finance._ensure_file_exists. rewrite Hfile.
  unfold Finance.append_text. rewrite lookup_insert_eq, Hfile.
  change (default "" (Some ?text)) with text.
  rewrite unlines_app, append_assoc.
  unfold Finance.row_of. cbn [unlines fold_right].
  now rewrite append_empty.
Qed.

Lemma log_calls_content (calls : list Finance.call) (fs : vault) (now : clock)
    (rows : list string) :
  Forall (fun c => ym (Finance.at_time c) = ym now) calls ->
  fs !! Finance._get_current_month_file now
  = Some (Finance.header now +:+ unlines rows) ->
  fold_left Finance.log_call calls fs !! Finance._get_current_month_file now
  = Some (Finance.header now
          +:+ unlines (rows ++ map Finance.row_of calls)).
Proof.
  intros Hym. revert fs rows.
  induction Hym as [|c calls Hc _ IH]; intros fs rows Hfile.
  - cbn [fold_left map]. now rewrite app_nil_r.
  - cbn [fold_left map].
    rewrite (IH _ (rows ++ [Finance.row_of c])).
    + now rewrite <- app_assoc.
    + now apply log_call_content.
Qed.

Lemma header_lines_one_line (now : clock) :
  Codec.one_line (ymd now) = true ->
  Codec.one_line (month_year now) = true ->
  Forall (fun line => Codec.one_line line = true) (Finance.header_lines now).
Proof.
  intros Hd Hm. unfold Finance.header_lines.
  repeat constructor; now apply one_line_append.
Qed.

(** C4. Calls of [log_transaction] in one month, each well formed, on a
    vault where the ledger of the month is then created: the ledger is
    read without an error, and parsing the text read gives back one
    record per call, in the order of the calls, each with the values of
    its row, column by column. *)
Theorem parse_gives_back_logged_rows (fs : vault) (now : clock)
    (calls : list Finance.call) :
  Codec.one_line (ymd now) = true ->
  Codec.one_line (month_year now) = true ->
  fs !! Finance._get_current_month_file now = None ->
  Forall (fun c => ym (Finance.at_time c) = ym now) calls ->
  Forall (fun c => Finance.well_formed c = true) calls ->
  exists content,
    Codec.read <$>
      (fold_left Finance.log_call calls
         (Finance._ensure_file_exists fs (Finance._get_current_month_file now)
            now)
       !! Finance._get_current_month_file now)
    = Some (Normal content)
    /\ Finance._parse_markdown_table content = map Finance.record_of calls.
Proof.
  intros Hd Hm Hnew Hym Hwf.
  exists (unlines (Finance.header_lines now ++ map Finance.row_of calls)).
  assert (Hlines : Forall (fun line => Codec.one_line line = true)
                     (Finance.header_lines now ++ map Finance.row_of calls)).
  { apply Forall_app. split; [now apply header_lines_one_line|].
    apply Forall_fmap. eapply Forall_impl; [exact Hwf|].
    intros c Hc. now apply row_one_line. }
  split.
  - rewrite (log_calls_content calls _ now [] Hym).
    2:{ unfold Finance._ensure_file_exists. rewrite Hnew, lookup_insert_eq.
        cbn [unlines fold_right]. now rewrite append_empty. }
    cbn [fmap option_fmap option_map app]. f_equal.
    unfold Finance.header.
    unfold Finance.header_lines at 1. rewrite join_unlines.
    fold (Finance.header_lines now).
    rewrite <- unlines_app. now apply read_text_lines.
  - unfold Finance._parse_markdown_table. rewrite split_unlines.
    + rewrite <- app_assoc, parse_header_lines, parse_rows by exact Hwf.
      cbn [Finance.parse_lines]. apply app_nil_r.
    + eapply Forall_impl; [exact Hlines|]. intros line Hline.
      now destruct (one_line_inv line Hline) as (_ & Hnl & _).
Qed.

(** The three calls with the amounts 10, 20, 10, on an empty vault. *)
Lemma parse_gives_back_logged_rows_witness :
  let now := Scenario.november "03" "09:00" in
  exists content,
    Codec.read <$>
      (fold_left Finance.log_call Scenario.ten_twenty_ten
         (Finance._ensure_file_exists ∅ (Finance._get_current_month_file now)
            now)
       !! Finance._get_current_month_file now)
    = Some (Normal content)
    /\ Finance._parse_markdown_table content
       = [ [ ("Date", "2025-11-03 09:00"); ("Type", "Expense");
          ("Category", "Food"); ("Description", "Lunch");
          ("Amount", "10.0"); ("Currency", "USD") ];
        [ ("Date", "2025-11-03 13:30"); ("Type", "Expense");
          ("Category", "General"); ("Description", "Book");
          ("Amount", "20.0"); ("Currency", "USD") ];
        [ ("Date", "2025-11-04 08:15"); ("Type", "Expense");
          ("Category", "Transport"); ("Description", "Taxi home");
          ("Amount", "10.0"); ("Currency", "USD") ] ].
Proof.
  intros now.
  apply (parse_gives_back_logged_rows ∅ now Scenario.ten_twenty_ten).
  - vm_compute. reflexivity.
  - vm_compute. reflexivity.
  - vm_compute. reflexivity.
  - unfold Scenario.ten_twenty_ten.
    repeat (apply List.Forall_cons; [vm_compute; reflexivity|]).
    apply List.Forall_nil.
  - unfold Scenario.ten_twenty_ten.
    repeat (apply List.Forall_cons; [vm_compute; reflexivity|]).
    apply List.Forall_nil.
Defined.

(** Where well-formedness is needed: a call with an empty description
    writes a row of five cells, which the parser drops; and a description
    with a CR in it is read back on two lines, neither of which is a row
    of six cells.  A description beyond ASCII with a category of its own
    is well formed. *)
Lemma blank_description_is_dropped :
  let now := Scenario.november "03" "09:00" in
  let c := Scenario.expense now "" "5.0" in
  let d := Scenario.expense now ("a" +:+ String "013" "b") "5.0" in
  Finance.well_formed c = false
  /\ Finance._parse_markdown_table <$>
       (Scenario.ledger [c] !! Finance._get_current_month_file now)
     = Some []
  /\ Finance.well_formed
       {| Finance.at_time := now; Finance.description := "Café con María";
          Finance.amount := "4.5"; Finance.type := "Expense";
          Finance.category := "Food"; Finance.currency := "COP" |}
     = true
  /\ Finance.well_formed d = false
  /\ (exists content,
        Codec.read <$>
          (Scenario.ledger [d] !! Finance._get_current_month_file now)
        = Some (Normal content)
        /\ Finance._parse_markdown_table content = []).
Proof.
  intros now c d. repeat split; try (vm_compute; reflexivity).
  eexists. split; vm_compute; reflexivity.
Qed.

(** * Further properties of the code *)

Import MoreText.

(** ** The last and the first element with a property *)


Lemma first_hit {A : Type} (p : A -> bool) (l : list A) :
  Forall (fun x => p x = false) l
  \/ exists pre x post,
       l = pre ++ x :: post /\ p x = true
       /\ Forall (fun y => p y = false) pre.
Proof.
  induction l as [|a l IH]; [left; constructor|].
  destruct (p a) eqn:E.
  - right. exists [], a, l. repeat split; [assumption|constructor].
  - destruct IH as [Hnone|(pre & x & post & -> & Hx & Hpre)].
    + left. constructor; assumption.
    + right. exists (a :: pre), x, post.
      repeat split; [assumption|constructor; assumption].
Qed.

(** ** Undo and deletion, for every ledger *)




Lemma delete_at_last_accepted_line (fs : vault) (now : clock)
    (criteria bytes content : string) (pre : list string) (row : string)
    (post : list string) :
  fs !! Finance._get_current_month_file now = Some bytes ->
  Codec.read bytes = Normal content ->
  splitlines content = pre ++ row :: post ->
  negb (Finance.is_skipped row) && Finance.line_matches criteria row = true ->
  Forall (fun line =>
            negb (Finance.is_skipped line)
            && Finance.line_matches criteria line = false) post ->
  Finance.delete_specific_transaction fs now criteria
  = (Finance.write_lines fs (Finance._get_current_month_file now)
       (pre ++ post),
     "Successfully deleted transaction: " +:+ row).
Proof.
  intros Hfile Hread Hlines Hrow Hpost.
  unfold Finance.delete_specific_transaction. rewrite Hfile, Hread, Hlines.
  unfold Finance.find_match.
  rewrite (scan_last_match _ _ pre row post 0 (-1) Hrow Hpost).
  destruct (Z.eqb_spec (0 + Z.of_nat (length pre)) (-1)) as [Hneg|_]; [lia|].
  rewrite Z.add_0_l, Nat2Z.id, list_lookup_middle by reflexivity.
  now rewrite delete_middle.
Qed.






(** ** Lines written and read back *)

Lemma any_char_append (p : ascii -> bool) (a b : string) :
  any_char p (a +:+ b) = any_char p a || any_char p b.
Proof.
  induction a as [|x a IH]; [reflexivity|].
  change (String x a +:+ b) with (String x (a +:+ b)).
  cbn [any_char]. rewrite IH. apply orb_assoc.
Qed.

Lemma splitlines_line (s t : string) :
  has_linebreak s = false ->
  splitlines (s +:+ nl +:+ t) = s :: splitlines t.
Proof.
  unfold has_linebreak. induction s as [|a s IH]; intros H.
  - change ("" +:+ nl +:+ t) with (String "010" t).
    cbn [splitlines]. change (is_linebreak "010") with true. cbn iota.
    destruct t as [|b t]; [reflexivity|].
    change (Ascii.eqb "010" "013") with false. reflexivity.
  - cbn [any_char] in H. apply orb_false_iff in H as [Ha Hs].
    change (String a s +:+ nl +:+ t) with (String a (s +:+ nl +:+ t)).
    cbn [splitlines]. rewrite Ha, (IH Hs). reflexivity.
Qed.

Lemma splitlines_unlines (lines : list string) :
  Forall (fun line => has_linebreak line = false) lines ->
  splitlines (unlines lines) = lines.
Proof.
  induction 1 as [|line lines Hline _ IH]; [reflexivity|].
  cbn [unlines fold_right]. fold (unlines lines).
  now rewrite (splitlines_line line _ Hline), IH.
Qed.

Lemma splitlines_without_breaks_upto (n : nat) (s : string) :
  String.length s <= n ->
  Forall (fun line => has_linebreak line = false) (splitlines s).
Proof.
  revert s. induction n as [|n IH]; intros s Hlen.
  - destruct s; [constructor|cbn in Hlen; lia].
  - destruct s as [|a s]; [constructor|].
    cbn [String.length] in Hlen. cbn [splitlines].
    destruct (is_linebreak a) eqn:Ha.
    + destruct s as [|b s]; [repeat constructor|].
      cbn [String.length] in Hlen.
      destruct (Ascii.eqb a "013" && Ascii.eqb b "010").
      * constructor; [reflexivity|]. apply IH. lia.
      * constructor; [reflexivity|]. apply IH. cbn [String.length]. lia.
    + assert (Hs : Forall (fun line => has_linebreak line = false)
                     (splitlines s)) by (apply IH; lia).
      destruct (splitlines s) as [|w ws].
      * repeat constructor. unfold has_linebreak. cbn [any_char].
        now rewrite Ha.
      * inversion Hs as [|? ? Hw Hws]; subst.
        constructor; [|assumption].
        unfold has_linebreak in *. cbn [any_char]. now rewrite Ha, Hw.
Qed.

(** The lines that [splitlines] gives hold no line boundary. *)
Lemma splitlines_without_breaks (s : string) :
  Forall (fun line => has_linebreak line = false) (splitlines s).
Proof. now apply splitlines_without_breaks_upto with (String.length s). Qed.

Lemma plain_valid (s : string) :
  Codec.plain s = true -> Codec.utf8_valid s = true.
Proof. unfold Codec.plain. intros H. now apply andb_true_iff in H as [H _]. Qed.

Lemma no_linebreak_no_cr (s : string) :
  has_linebreak s = false -> contains s (String "013" "") = false.
Proof.
  unfold has_linebreak. induction s as [|a s IH]; [reflexivity|].
  cbn [any_char]. intros H. apply orb_false_iff in H as [Ha Hs].
  rewrite contains_char_cons, (IH Hs), orb_false_r.
  destruct (Ascii.eqb_spec a "013") as [->|_]; [discriminate Ha|reflexivity].
Qed.

Lemma utf8_valid_unlines (lines : list string) :
  Forall (fun l => Codec.utf8_valid l = true) lines ->
  Codec.utf8_valid (unlines lines) = true.
Proof.
  induction 1 as [|line rest Hline _ IH]; [reflexivity|].
  cbn [unlines fold_right]. fold (unlines rest).
  apply utf8_valid_append; [exact Hline|].
  now apply utf8_valid_append.
Qed.

Lemma unlines_without_cr (lines : list string) :
  Forall (fun l => has_linebreak l = false) lines ->
  contains (unlines lines) (String "013" "") = false.
Proof.
  induction 1 as [|line rest Hline _ IH]; [reflexivity|].
  cbn [unlines fold_right]. fold (unlines rest). unfold nl.
  now rewrite !contains_char_append, (no_linebreak_no_cr line Hline), IH.
Qed.

(** Lines of text without line boundaries, each closed by a newline, are
    read as they were written. *)
Lemma read_lines (lines : list string) :
  Forall (fun l => Codec.utf8_valid l = true) lines ->
  Forall (fun l => has_linebreak l = false) lines ->
  Codec.read (unlines lines) = Normal (unlines lines).
Proof.
  intros Hvalid Hbreaks.
  rewrite read_valid by now apply utf8_valid_unlines.
  now rewrite newlines_without_cr by now apply unlines_without_cr.
Qed.

Lemma plain_lines_valid (lines : list string) :
  Forall (fun l => Codec.plain l = true) lines ->
  Forall (fun l => Codec.utf8_valid l = true) lines.
Proof.
  intros H. eapply Forall_impl; [exact H|]. intros l. apply plain_valid.
Qed.

(** X7. Plain lines without line boundaries that are written back to a
    file are the lines of the text read from it again. *)
Theorem lines_written_are_read_back (fs : vault) (path line : string)
    (lines : list string) :
  Forall (fun l => Codec.plain l = true) (line :: lines) ->
  Forall (fun l => has_linebreak l = false) (line :: lines) ->
  Codec.read <$> (Finance.write_lines fs path (line :: lines) !! path)
  = Some (Normal (unlines (line :: lines)))
  /\ splitlines (unlines (line :: lines)) = line :: lines.
Proof.
  intros Hplain Hbreaks. split.
  - unfold Finance.write_lines. rewrite lookup_insert_eq.
    cbn [fmap option_fmap option_map]. f_equal.
    rewrite join_unlines. apply read_lines; [|exact Hbreaks].
    now apply plain_lines_valid.
  - now apply splitlines_unlines.
Qed.

Lemma lines_written_are_read_back_witness :
  Codec.read <$>
    (Finance.write_lines ∅ "vault/Finance/2025-11-Finance.md"
       [Finance.header_row; Finance.separator_row]
     !! "vault/Finance/2025-11-Finance.md")
  = Some (Normal (unlines [Finance.header_row; Finance.separator_row]))
  /\ splitlines (unlines [Finance.header_row; Finance.separator_row])
     = [Finance.header_row; Finance.separator_row].
Proof.
  apply (lines_written_are_read_back ∅ "vault/Finance/2025-11-Finance.md"
           Finance.header_row [Finance.separator_row]).
  - repeat (apply List.Forall_cons; [vm_compute; reflexivity|]).
    apply List.Forall_nil.
  - repeat (apply List.Forall_cons; [vm_compute; reflexivity|]).
    apply List.Forall_nil.
Defined.

(** ** Logging, then undoing or deleting *)

Lemma log_call_appends (fs : vault) (now : clock) (c : Finance.call)
    (content : string) :
  ym (Finance.at_time c) = ym now ->
  fs !! Finance._get_current_month_file now = Some content ->
  Finance.log_call fs c
  = <[Finance._get_current_month_file now
      := content +:+ Finance.row_of c +:+ nl]> fs.
Proof.
  intros Hym Hfile.
  unfold Finance.log_call, Finance.log_transaction. cbn [fst].
  replace (Finance._get_current_month_file (Finance.at_time c))
    with (Finance._get_current_month_file now)
    by (unfold Finance._get_current_month_file; now rewrite Hym).
  unfold Finance._ensure_file_exists. rewrite Hfile.
  unfold Finance.append_text. rewrite Hfile. reflexivity.
Qed.

Lemma logged_lines (fs : vault) (now : clock) (c : Finance.call)
    (lines : list string) :
  ym (Finance.at_time c) = ym now ->
  fs !! Finance._get_current_month_file now = Some (unlines lines) ->
  Forall (fun l => Codec.utf8_valid l = true) lines ->
  Forall (fun l => has_linebreak l = false) lines ->
  Codec.utf8_valid (Finance.row_of c) = true ->
  has_linebreak (Finance.row_of c) = false ->
  exists content,
    Finance.log_call fs c
    = <[Finance._get_current_month_file now := content]> fs
    /\ Codec.read content = Normal content
    /\ splitlines content = lines ++ [Finance.row_of c].
Proof.
  intros Hym Hfile Hvalid Hlines Hrowv Hrow.
  exists (unlines lines +:+ Finance.row_of c +:+ nl).
  assert (Htext : unlines lines +:+ Finance.row_of c +:+ nl
                  = unlines (lines ++ [Finance.row_of c])).
  { change (Finance.row_of c +:+ nl) with (unlines [Finance.row_of c]).
    now rewrite <- unlines_app. }
  split; [now apply log_call_appends|].
  rewrite Htext. split.
  - apply read_lines; apply Forall_app; split; try assumption;
      now repeat constructor.
  - apply splitlines_unlines.
    apply Forall_app. split; [assumption|]. now repeat constructor.
Qed.

Lemma rewritten_ledger (fs : vault) (path content : string) (line : string)
    (lines : list string) :
  fs !! path = Some (unlines (line :: lines)) ->
  Finance.write_lines (<[path := content]> fs) path (line :: lines) = fs.
Proof.
  intros Hfile. unfold Finance.write_lines.
  rewrite insert_insert_eq, join_unlines. now apply insert_id.
Qed.

(** X2. Logging a transaction and undoing it at once gives back the vault
    as it was, for a ledger of plain lines, each closed by a newline, and
    an ASCII row that is one data line. *)
Theorem undo_after_log_restores_the_vault (fs : vault) (now : clock)
    (c : Finance.call) (line : string) (lines : list string) :
  ym (Finance.at_time c) = ym now ->
  fs !! Finance._get_current_month_file now = Some (unlines (line :: lines)) ->
  Forall (fun l => Codec.plain l = true) (line :: lines) ->
  Forall (fun l => has_linebreak l = false) (line :: lines) ->
  Codec.is_ascii (Finance.row_of c) = true ->
  has_linebreak (Finance.row_of c) = false ->
  Finance.is_data_line (Finance.row_of c) = true ->
  fst (Finance.undo_last_transaction (Finance.log_call fs c) now) = fs.
Proof.
  intros Hym Hfile Hplain Hlines Hascii Hrow Hdata.
  destruct (logged_lines fs now c (line :: lines) Hym Hfile
              (plain_lines_valid _ Hplain) Hlines
              (is_ascii_valid _ Hascii) Hrow)
    as (content & -> & Hread & Hsplit).
  rewrite (undo_removes_last_data_line _ now content content (line :: lines)
             (Finance.row_of c) []).
  - cbn [fst]. rewrite app_nil_r. now apply rewritten_ledger.
  - apply lookup_insert_eq.
  - exact Hread.
  - exact Hsplit.
  - exact Hdata.
  - constructor.
Qed.

(** X5. Logging a transaction and then deleting with an ASCII criteria
    that matches its row gives back the vault as it was, for a ledger of
    plain lines and an ASCII row: the row just logged is the one that
    goes, whatever matched before. *)
Theorem delete_after_log_restores_the_vault (fs : vault) (now : clock)
    (c : Finance.call) (criteria line : string) (lines : list string) :
  ym (Finance.at_time c) = ym now ->
  fs !! Finance._get_current_month_file now = Some (unlines (line :: lines)) ->
  Forall (fun l => Codec.plain l = true) (line :: lines) ->
  Forall (fun l => has_linebreak l = false) (line :: lines) ->
  Codec.is_ascii (Finance.row_of c) = true ->
  Codec.is_ascii criteria = true ->
  has_linebreak (Finance.row_of c) = false ->
  Finance.is_skipped (Finance.row_of c) = false ->
  Finance.line_matches criteria (Finance.row_of c) = true ->
  fst (Finance.delete_specific_transaction (Finance.log_call fs c) now criteria)
  = fs.
Proof.
  intros Hym Hfile Hplain Hlines Hascii _ Hrow Hskip Hmatch.
  destruct (logged_lines fs now c (line :: lines) Hym Hfile
              (plain_lines_valid _ Hplain) Hlines
              (is_ascii_valid _ Hascii) Hrow)
    as (content & -> & Hread & Hsplit).
  rewrite (delete_at_last_accepted_line _ now criteria content content
             (line :: lines) (Finance.row_of c) []).
  - cbn [fst]. rewrite app_nil_r. now apply rewritten_ledger.
  - apply lookup_insert_eq.
  - exact Hread.
  - exact Hsplit.
  - now rewrite Hskip, Hmatch.
  - constructor.
Qed.

Lemma undo_after_log_restores_the_vault_witness :
  let fs :=
    Scenario.ledger
      [ Scenario.expense (Scenario.november "03" "09:00") "Lunch" "10.0";
        Scenario.expense (Scenario.november "03" "13:30") "Book" "20.0" ] in
  let c := Scenario.expense (Scenario.november "04" "08:15") "Taxi home" "10.0" in
  fst (Finance.undo_last_transaction (Finance.log_call fs c)
         (Scenario.november "04" "09:00"))
  = fs.
Proof.
  intros fs c.
  apply (undo_after_log_restores_the_vault fs (Scenario.november "04" "09:00")
           c "---"
           [ "type: finance_log"; "status: active"; "created: 2025-11-03";
             "---"; ""; "# Financial Log: November 2025"; "";
             Finance.header_row; Finance.separator_row;
             "| 2025-11-03 09:00 | Expense | Food | Lunch | 10.0 | USD |";
             "| 2025-11-03 13:30 | Expense | General | Book | 20.0 | USD |" ]).
  - reflexivity.
  - vm_compute. reflexivity.
  - repeat (apply List.Forall_cons; [vm_compute; reflexivity|]).
    apply List.Forall_nil.
  - repeat (apply List.Forall_cons; [vm_compute; reflexivity|]).
    apply List.Forall_nil.
  - vm_compute. reflexivity.
  - vm_compute. reflexivity.
  - vm_compute. reflexivity.
Defined.

Lemma delete_after_log_restores_the_vault_witness :
  let fs :=
    Scenario.ledger
      [ Scenario.expense (Scenario.november "03" "09:00") "Lunch" "10.0";
        Scenario.expense (Scenario.november "03" "13:30") "Book" "20.0" ] in
  let c := Scenario.expense (Scenario.november "04" "08:15") "Taxi home" "10.0" in
  fst (Finance.delete_specific_transaction (Finance.log_call fs c)
         (Scenario.november "04" "09:00") "10")
  = fs.
Proof.
  intros fs c.
  apply (delete_after_log_restores_the_vault fs
           (Scenario.november "04" "09:00") c "10" "---"
           [ "type: finance_log"; "status: active"; "created: 2025-11-03";
             "---"; ""; "# Financial Log: November 2025"; "";
             Finance.header_row; Finance.separator_row;
             "| 2025-11-03 09:00 | Expense | Food | Lunch | 10.0 | USD |";
             "| 2025-11-03 13:30 | Expense | General | Book | 20.0 | USD |" ]).
  - reflexivity.
  - vm_compute. reflexivity.
  - repeat (apply List.Forall_cons; [vm_compute; reflexivity|]).
    apply List.Forall_nil.
  - repeat (apply List.Forall_cons; [vm_compute; reflexivity|]).
    apply List.Forall_nil.
  - vm_compute. reflexivity.
  - vm_compute. reflexivity.
  - vm_compute. reflexivity.
  - vm_compute. reflexivity.
  - vm_compute. reflexivity.
Defined.



(** ** The update loop of the tracker, for every tracker *)

(** X8. On plain lines, the update loop of [log_habit] keeps every line:
    when some line is a row of that day and habit that the loop takes,
    the first such row is replaced where it stands; when none is, the new
    row is appended at the end, after a blank line when the last line is
    not blank. *)
Theorem updated_lines_replace_one_or_append (lines : list string)
    (date_str habit new_row : string) :
  let keyed l := negb (Goals.is_passed l) && Goals.has_key l date_str habit in
  Forall (fun l => Codec.plain l = true) lines ->
  (exists pre line post,
      lines = pre ++ line :: post
      /\ keyed line = true
      /\ Forall (fun l => keyed l = false) pre
      /\ Goals.updated_lines lines date_str habit new_row
         = pre ++ new_row :: post)
  \/ (Forall (fun l => keyed l = false) lines
      /\ (forall l, last lines = Some l -> truthy (strip l) = false)
      /\ Goals.updated_lines lines date_str habit new_row
         = lines ++ [new_row])
  \/ (Forall (fun l => keyed l = false) lines
      /\ (exists l, last lines = Some l /\ truthy (strip l) = true)
      /\ Goals.updated_lines lines date_str habit new_row
         = lines ++ [""; new_row]).
Proof.
  intros keyed _.
  destruct (first_hit keyed lines)
    as [Hnone|(pre & line & post & -> & Hline & Hpre)].
  - right. rewrite (update_row_none lines date_str habit new_row Hnone).
    unfold Goals.append_row.
    destruct (last lines) as [l|] eqn:Hlast.
    + destruct (truthy (strip l)) eqn:Hblank.
      * right. repeat split; [exact Hnone|now exists l].
      * left. repeat split; [exact Hnone|]. intros l' Hl'. congruence.
    + left. repeat split; [exact Hnone|]. intros l' Hl'. discriminate Hl'.
  - left. exists pre, line, post. repeat split; try assumption.
    unfold keyed in Hline. apply andb_true_iff in Hline as [Hpassed Hkey].
    apply negb_true_iff in Hpassed.
    now apply update_row_replaces.
Qed.

(** A tracker with a row of "Run" and a later row of "Read" for the third
    of November: a new row of "Run" for that day takes the place of the
    first. *)
Lemma updated_lines_replace_one_or_append_witness :
  let lines :=
    [ "# Habit Tracker 🏃"; "";
      "| Date | Habit | Status | Coach Comment |";
      "| :--- | :--- | :--- | :--- |"; "";
      "| 2025-11-03 | Run | Done | Keep pushing. |"; "";
      "| 2025-11-03 | Read | Done | Keep pushing. |" ] in
  let new_row := "| 2025-11-03 | Run | Missed | ⚠️ Don't let this slide. |" in
  Goals.updated_lines lines "2025-11-03" "Run" new_row
  = [ "# Habit Tracker 🏃"; "";
      "| Date | Habit | Status | Coach Comment |";
      "| :--- | :--- | :--- | :--- |"; "";
      new_row; "";
      "| 2025-11-03 | Read | Done | Keep pushing. |" ].
Proof.
  intros lines new_row.
  destruct (updated_lines_replace_one_or_append lines "2025-11-03" "Run"
              new_row)
    as [(pre & line & post & Hlines & Hkey & Hpre & Hupdated)
       |[(Hnone & _)|(Hnone & _)]].
  - subst lines.
    repeat (apply List.Forall_cons; [vm_compute; reflexivity|]).
    apply List.Forall_nil.
  - vm_compute. reflexivity.
  - exfalso. subst lines.
    do 5 (apply Forall_cons in Hnone as [_ Hnone]).
    apply Forall_cons in Hnone as [Hrow _]. vm_compute in Hrow.
    discriminate Hrow.
  - exfalso. subst lines.
    do 5 (apply Forall_cons in Hnone as [_ Hnone]).
    apply Forall_cons in Hnone as [Hrow _]. vm_compute in Hrow.
    discriminate Hrow.
Defined.

(** ** The assistant's name and the user's profile *)

Lemma startswith_own_prefix (p s : string) : startswith (p +:+ s) p = true.
Proof.
  induction p as [|a p IH]; [reflexivity|].
  change (String a p +:+ s) with (String a (p +:+ s)).
  cbn [startswith]. now rewrite Ascii.eqb_refl, IH.
Qed.

Lemma after_first_append (sep : ascii) (p r : string) :
  contains p (String sep "") = false ->
  after_first sep (p +:+ String sep r) = Some r.
Proof.
  induction p as [|a p IH]; intros H.
  - change ("" +:+ String sep r) with (String sep r).
    cbn [after_first]. now rewrite Ascii.eqb_refl.
  - rewrite contains_char_cons in H. apply orb_false_iff in H as [Ha Hp].
    change (String a p +:+ String sep r) with (String a (p +:+ String sep r)).
    cbn [after_first]. now rewrite Ha, (IH Hp).
Qed.

Lemma newlines_line (l t : string) :
  has_linebreak l = false ->
  Codec.newlines (l +:+ nl +:+ t) = l +:+ nl +:+ Codec.newlines t.
Proof.
  unfold has_linebreak. induction l as [|a l IH]; intros H.
  - reflexivity.
  - cbn [any_char] in H. apply orb_false_iff in H as [Ha Hl].
    change (String a l +:+ nl +:+ t) with (String a (l +:+ nl +:+ t)).
    cbn [Codec.newlines].
    destruct (Ascii.eqb_spec a "013") as [->|_]; [discriminate Ha|].
    now rewrite (IH Hl).
Qed.

(** X9. From a configuration file of the form that [set_assistant_name]
    builds, [_get_system_config] reads the name back, stripped, when the
    name is a plain text without a line boundary (and the time stamp is
    ASCII). *)
Theorem assistant_name_is_read_back (fs : vault) (name updated : string) :
  Codec.plain name = true ->
  has_linebreak name = false ->
  Codec.is_ascii updated = true ->
  Identity._get_system_config
    (<[Identity.config_path := Identity.config_text name updated]> fs)
  = Some (strip name).
Proof.
  intros Hplain Hname Hupdated. unfold Identity._get_system_config.
  rewrite lookup_insert_eq. unfold Identity.config_text.
  rewrite read_valid.
  2:{ repeat (apply utf8_valid_append);
        try (vm_compute; reflexivity);
        [now apply plain_valid|now apply is_ascii_valid]. }
  rewrite (newlines_line "# System Configuration")
    by (vm_compute; reflexivity).
  replace ("Assistant Name: " +:+ name +:+ nl +:+ "Updated: " +:+ updated)
    with (("Assistant Name: " +:+ name) +:+ nl +:+ "Updated: " +:+ updated)
    by (now rewrite append_assoc).
  assert (Hline : has_linebreak ("Assistant Name: " +:+ name) = false).
  { unfold has_linebreak in *. rewrite any_char_append, Hname.
    vm_compute. reflexivity. }
  rewrite newlines_line by exact Hline.
  rewrite (splitlines_line "# System Configuration")
    by (vm_compute; reflexivity).
  rewrite splitlines_line by exact Hline.
  cbn [Identity.config_name].
  replace (startswith "# System Configuration" "Assistant Name:") with false
    by (vm_compute; reflexivity).
  change ("Assistant Name: " +:+ name)
    with ("Assistant Name:" +:+ String " " name).
  rewrite startswith_own_prefix.
  change ("Assistant Name:" +:+ String " " name)
    with ("Assistant Name" +:+ String ":" (String " " name)).
  rewrite after_first_append by (vm_compute; reflexivity).
  unfold strip. cbn [lstrip]. change (is_space " ") with true. reflexivity.
Qed.

Lemma assistant_name_is_read_back_witness :
  Identity._get_system_config
    (<[Identity.config_path
       := Identity.config_text " José Martí " "2025-11-03 09:00:00.123456"]> ∅)
  = Some "José Martí".
Proof.
  apply (assistant_name_is_read_back ∅ " José Martí "
           "2025-11-03 09:00:00.123456").
  - vm_compute. reflexivity.
  - vm_compute. reflexivity.
  - vm_compute. reflexivity.
Defined.

Lemma remember_fact_profile (fs : vault) (fact : string) :
  fst (Identity.remember_fact fs fact) !! Identity.profile_path
  = Some (default ("# User Profile & Core Memory" +:+ nl)
            (fs !! Identity.profile_path)
          +:+ nl +:+ "- " +:+ fact).
Proof.
  unfold Identity.remember_fact. cbn [fst]. unfold Finance.append_text.
  rewrite lookup_insert_eq.
  destruct (fs !! Identity.profile_path) as [c|] eqn:E.
  - now rewrite E.
  - now rewrite lookup_insert_eq.
Qed.

Lemma remembered_facts_profile (facts : list string) (fs : vault)
    (content : string) :
  fs !! Identity.profile_path = Some content ->
  fold_left (fun fs fact => fst (Identity.remember_fact fs fact)) facts fs
    !! Identity.profile_path
  = Some (content
          +:+ fold_right (fun fact rest => nl +:+ "- " +:+ fact +:+ rest) ""
                facts).
Proof.
  revert fs content. induction facts as [|fact facts IH]; intros fs content H.
  - cbn [fold_left fold_right]. now rewrite append_empty.
  - cbn [fold_left fold_right].
    rewrite (IH _ (content +:+ nl +:+ "- " +:+ fact)).
    + now rewrite !append_assoc.
    + rewrite remember_fact_profile, H. reflexivity.
Qed.

Lemma bullets_valid (facts : list string) :
  Forall (fun fact => Codec.utf8_valid fact = true) facts ->
  Codec.utf8_valid
    (fold_right (fun fact rest => nl +:+ "- " +:+ fact +:+ rest) "" facts)
  = true.
Proof.
  induction 1 as [|fact facts Hfact _ IH]; [reflexivity|].
  cbn [fold_right].
  repeat (apply utf8_valid_append); try assumption; reflexivity.
Qed.

(** X10. After remembering facts one by one, the profile read back is the
    old profile (or the title line, when there was none) followed by one
    bullet per fact, in the order given, with the ends of line that the
    read turns into LF: for an old profile that is UTF-8 and facts that
    are texts. *)
Theorem remembered_facts_accumulate (fs : vault) (fact : string)
    (facts : list string) :
  (forall old,
      fs !! Identity.profile_path = Some old -> Codec.utf8_valid old = true) ->
  Forall (fun fact => Codec.utf8_valid fact = true) (fact :: facts) ->
  Identity._load_user_profile
    (fold_left (fun fs fact => fst (Identity.remember_fact fs fact))
       (fact :: facts) fs)
  = Codec.newlines
      (default ("# User Profile & Core Memory" +:+ nl)
         (fs !! Identity.profile_path)
       +:+ fold_right (fun fact rest => nl +:+ "- " +:+ fact +:+ rest) ""
             (fact :: facts)).
Proof.
  intros Hold Hfacts.
  unfold Identity._load_user_profile. cbn [fold_left].
  rewrite (remembered_facts_profile facts _ _ (remember_fact_profile fs fact)).
  assert (Htext :
            (default ("# User Profile & Core Memory" +:+ nl)
               (fs !! Identity.profile_path) +:+ nl +:+ "- " +:+ fact)
            +:+ fold_right (fun fact rest => nl +:+ "- " +:+ fact +:+ rest) ""
                  facts
            = default ("# User Profile & Core Memory" +:+ nl)
                (fs !! Identity.profile_path)
              +:+ fold_right (fun fact rest => nl +:+ "- " +:+ fact +:+ rest)
                    "" (fact :: facts)).
  { cbn [fold_right]. now rewrite !append_assoc. }
  rewrite Htext, read_valid; [reflexivity|].
  apply utf8_valid_append; [|now apply bullets_valid].
  destruct (fs !! Identity.profile_path) as [old|]; [now apply Hold|].
  reflexivity.
Qed.

(** Two facts on an empty vault, the second with a CR LF in it. *)
Lemma remembered_facts_accumulate_witness :
  Identity._load_user_profile
    (fold_left (fun fs fact => fst (Identity.remember_fact fs fact))
       [ "likes tea"; "born in Lyon," +:+ String "013" nl +:+ "lives in Bogotá" ]
       ∅)
  = join nl [ "# User Profile & Core Memory"; ""; "- likes tea";
              "- born in Lyon,"; "lives in Bogotá" ].
Proof.
  rewrite (remembered_facts_accumulate ∅ "likes tea"
             ["born in Lyon," +:+ String "013" nl +:+ "lives in Bogotá"]).
  - vm_compute. reflexivity.
  - intros old H. rewrite lookup_empty in H. discriminate H.
  - repeat (apply List.Forall_cons; [vm_compute; reflexivity|]).
    apply List.Forall_nil.
Defined.

(** ** Sessions *)

(** X11. Getting the session of a sender never drops or replaces a
    session: the sessions before are all still there, the sender has the
    session returned, the sessions of other senders are untouched, and a
    second call returns the same session whatever the vault then holds. *)
Theorem get_session_keeps_sessions {session : Type}
    (start_chat : list (string * string) -> session)
    (sessions : gmap string session) (fs later : vault) (sender : string) :
  let after := Identity.get_session start_chat sessions fs sender in
  sessions ⊆ fst after
  /\ fst after !! sender = Some (snd after)
  /\ delete sender (fst after) = delete sender sessions
  /\ Identity.get_session start_chat (fst after) later sender = after.
Proof.
  unfold Identity.get_session.
  destruct (sessions !! sender) as [chat|] eqn:E; cbn [fst snd].
  - repeat split; [reflexivity|assumption|now rewrite E].
  - repeat split.
    + now apply insert_subseteq.
    + apply lookup_insert_eq.
    + apply delete_insert_eq.
    + now rewrite lookup_insert_eq.
Qed.

(** ** The text of the reply *)

Lemma rstrip_rstrip (s : string) : rstrip (rstrip s) = rstrip s.
Proof.
  induction s as [|a s IH]; [reflexivity|].
  cbn [rstrip]. destruct (is_space a && is_empty (rstrip s)) eqn:E;
    [reflexivity|].
  cbn [rstrip]. now rewrite IH, E.
Qed.

Lemma lstrip_head (s : string) :
  lstrip s = "" \/ exists a t, lstrip s = String a t /\ is_space a = false.
Proof.
  induction s as [|a s IH]; [now left|].
  cbn [lstrip]. destruct (is_space a) eqn:E; [exact IH|].
  right. now exists a, s.
Qed.

Lemma strip_strip (s : string) : strip (strip s) = strip s.
Proof.
  unfold strip. destruct (lstrip_head s) as [->|(a & t & -> & Ha)];
    [reflexivity|].
  cbn [rstrip]. rewrite Ha. cbn [andb lstrip]. rewrite Ha.
  cbn [rstrip]. now rewrite Ha, rstrip_rstrip.
Qed.

Lemma final_text_has_text {Args : Type} (r : Orchestrator.response Args) :
  truthy (strip (Conversation.final_text r)) = true.
Proof.
  unfold Conversation.final_text.
  destruct (truthy (strip (Conversation.joined_text r))) eqn:E.
  - now rewrite strip_strip.
  - vm_compute. reflexivity.
Qed.

(** X12. The text taken from the closing response is never empty and
    carries no surrounding whitespace. *)
Theorem final_text_is_not_blank {Args : Type}
    (r : Orchestrator.response Args) :
  truthy (Conversation.final_text r) = true
  /\ strip (Conversation.final_text r) = Conversation.final_text r.
Proof.
  assert (Hstripped : strip (Conversation.final_text r)
                      = Conversation.final_text r).
  { unfold Conversation.final_text.
    destruct (truthy (strip (Conversation.joined_text r)));
      [apply strip_strip|vm_compute; reflexivity]. }
  split; [|exact Hstripped].
  rewrite <- Hstripped. apply final_text_has_text.
Qed.

(** ** A conversation turn *)

Section Turn.

Context {Args session : Type}.
Variable send_message :
  session -> Orchestrator.message
  -> session * result (Orchestrator.response Args).

Import Orchestrator.

(** X13. An exception of the first message to the model is not caught: it
    leaves the turn as raised, with the vault untouched. *)
Theorem first_send_failure_propagates (tools : gmap string (tool Args))
    (fuel : nat) (content : string) (w : world session) (c' : session)
    (e : string) :
  send_message (chat w) (UserContent content) = (c', Raised e) ->
  Conversation.converse send_message tools fuel content w
  = ({| chat := c'; files := files w |}, Raised e).
Proof.
  intros H. unfold Conversation.converse, bind, chat_send.
  now rewrite H.
Qed.



End Turn.

Lemma first_send_failure_propagates_witness :
  let send (c : nat) (m : Orchestrator.message) :=
    (S c, Raised "503 Service Unavailable"
          : result (Orchestrator.response (list string))) in
  Conversation.converse send Scenario.two_tools 3 "hola"
    (Orchestrator.Build_world 0%nat Scenario.fresh_ledger)
  = (Orchestrator.Build_world 1%nat Scenario.fresh_ledger,
     Raised "503 Service Unavailable").
Proof.
  intros send.
  apply (first_send_failure_propagates send Scenario.two_tools 3 "hola"
           (Orchestrator.Build_world 0%nat Scenario.fresh_ledger) 1%nat
           "503 Service Unavailable").
  reflexivity.
Defined.


(** ** Notes and search *)






Lemma substring_length (s : string) (n m : nat) :
  String.length (substring n m s) <= m.
Proof.
  revert n m. induction s as [|a s IH]; intros [|n] [|m]; cbn; try lia.
  - specialize (IH 0%nat m). lia.
  - apply IH.
  - apply IH.
Qed.

Lemma replace_char_length (a b : ascii) (s : string) :
  String.length (replace s (String a "") (String b "")) = String.length s.
Proof.
  unfold replace. induction s as [|x s IH]; [reflexivity|].
  cbn [replace_go startswith String.length Nat.sub].
  rewrite andb_true_r. destruct (Ascii.eqb x a).
  - change (String b "" +:+ ?t) with (String b t).
    cbn [String.length]. now rewrite IH.
  - cbn [String.length]. now rewrite IH.
Qed.

Lemma replace_char_absent (a b : ascii) (s : string) :
  Ascii.eqb b a = false ->
  contains (replace s (String a "") (String b "")) (String a "") = false.
Proof.
  intros Hba. unfold replace. induction s as [|x s IH]; [reflexivity|].
  cbn [replace_go startswith String.length Nat.sub].
  rewrite andb_true_r. destruct (Ascii.eqb x a) eqn:E.
  - change (String b "" +:+ ?t) with (String b t).
    now rewrite contains_char_cons, Hba, IH.
  - now rewrite contains_char_cons, E, IH.
Qed.

(** X16. For an ASCII content and query, a snippet of [search_vault] has
    at most 150 characters and holds no newline. *)
Theorem snippet_is_short_and_one_line (content query : string) :
  Codec.is_ascii content = true ->
  Codec.is_ascii query = true ->
  String.length (Knowledge.snippet content query) <= 150
  /\ contains (Knowledge.snippet content query) nl = false.
Proof.
  intros _ _. unfold Knowledge.snippet, slice, nl. split.
  - rewrite replace_char_length.
    etransitivity; [apply substring_length|]. lia.
  - now apply replace_char_absent.
Qed.

Lemma snippet_is_short_and_one_line_witness :
  let content := "# Reading list" +:+ nl +:+ "Ask Maria about the Rocq course." in
  String.length (Knowledge.snippet content "MARIA") <= 150
  /\ contains (Knowledge.snippet content "MARIA") nl = false.
Proof.
  intros content.
  apply (snippet_is_short_and_one_line content "MARIA").
  - vm_compute. reflexivity.
  - vm_compute. reflexivity.
Defined.

(** ** Parsing any text *)

(** X18. A plain text in which no table line holds "Date" has no header
    row, and parses to no record. *)
Theorem no_header_no_records (content : string) :
  Codec.plain content = true ->
  Forall (fun raw =>
            startswith (strip raw) "|" && contains (strip raw) "Date" = false)
    (split "010" content) ->
  Finance._parse_markdown_table content = [].
Proof.
  intros _. unfold Finance._parse_markdown_table.
  induction 1 as [|raw rest Hraw _ IH]; [reflexivity|].
  cbn [Finance.parse_lines].
  destruct (is_empty (strip raw)); [exact IH|]. cbn [orb].
  destruct (startswith (strip raw) "|"); [|exact IH].
  cbn [andb negb] in *. rewrite Hraw. cbn [andb].
  destruct (contains (strip raw) ":---"); exact IH.
Qed.

Lemma no_header_no_records_witness :
  Finance._parse_markdown_table
    ("| Day | Amount |" +:+ nl +:+ "| Monday | 10 |" +:+ nl)
  = [].
Proof.
  apply no_header_no_records; [vm_compute; reflexivity|].
  replace (split "010" ("| Day | Amount |" +:+ nl +:+ "| Monday | 10 |" +:+ nl))
    with ["| Day | Amount |"; "| Monday | 10 |"; ""]
    by (vm_compute; reflexivity).
  repeat (apply List.Forall_cons; [vm_compute; reflexivity|]).
  apply List.Forall_nil.
Defined.

Lemma dict_set_keys (d d' : record) (k v v' : string) :
  map fst d = map fst d' ->
  map fst (dict_set d k v) = map fst (dict_set d' k v').
Proof.
  revert d'. induction d as [|[k1 v1] d IH]; intros [|[k2 v2] d'] H;
    try discriminate; [reflexivity|].
  cbn [map fst] in H. injection H as -> H.
  cbn [dict_set]. destruct (String.eqb k2 k); cbn [map fst]; f_equal.
  - exact H.
  - now apply IH.
Qed.

Lemma dict_keys (headers vs vs' : list string) (d d' : record) :
  length vs = length headers -> length vs' = length headers ->
  map fst d = map fst d' ->
  map fst (fold_left (fun d kv => dict_set d (fst kv) (snd kv))
             (combine headers vs) d)
  = map fst (fold_left (fun d kv => dict_set d (fst kv) (snd kv))
               (combine headers vs') d').
Proof.
  revert vs vs' d d'.
  induction headers as [|h headers IH]; intros vs vs' d d' H1 H2 Hd;
    [exact Hd|].
  destruct vs as [|v vs]; [discriminate|].
  destruct vs' as [|v' vs']; [discriminate|].
  cbn [combine fold_left fst snd]. apply IH.
  - now injection H1.
  - now injection H2.
  - now apply dict_set_keys.
Qed.

Lemma parse_lines_keys_headed (lines headers : list string) :
  length headers <> 0%nat ->
  Forall (fun r => map fst r = map fst (dict (combine headers headers)))
    (Finance.parse_lines lines headers).
Proof.
  intros Hh. apply Nat.eqb_neq in Hh.
  induction lines as [|raw rest IH]; [constructor|].
  cbn [Finance.parse_lines]. rewrite Hh, andb_false_r. cbn [negb].
  destruct (is_empty (strip raw) || negb (startswith (strip raw) "|"));
    [exact IH|].
  destruct (contains (strip raw) ":---"); [exact IH|].
  destruct (Nat.eqb_spec (length (cells (strip raw))) (length headers))
    as [Hlen|_]; [|exact IH].
  constructor; [|exact IH].
  unfold dict. now apply dict_keys.
Qed.

Lemma parse_lines_keys (lines : list string) :
  exists keys,
    Forall (fun r => map fst r = keys) (Finance.parse_lines lines []).
Proof.
  induction lines as [|raw rest [keys IH]]; [exists []; constructor|].
  cbn [Finance.parse_lines length Nat.eqb negb]. rewrite andb_true_r.
  destruct (is_empty (strip raw) || negb (startswith (strip raw) "|"));
    [now exists keys|].
  destruct (contains (strip raw) "Date").
  - destruct (cells (strip raw)) as [|h headers] eqn:E; [now exists keys|].
    exists (map fst (dict (combine (h :: headers) (h :: headers)))).
    now apply parse_lines_keys_headed.
  - destruct (contains (strip raw) ":---"); now exists keys.
Qed.

(** X19. All the records parsed from a text have the same columns, in the
    same order. *)
Theorem parsed_records_share_their_columns (content : string) :
  exists keys,
    Forall (fun r => map fst r = keys) (Finance._parse_markdown_table content).
Proof. apply parse_lines_keys. Qed.

(** ** Occurrences *)

Lemma startswith_split (s p : string) :
  startswith s p = true -> exists b, s = p +:+ b.
Proof.
  revert s. induction p as [|x p IH]; intros s H; [now exists s|].
  destruct s as [|a s]; [discriminate|].
  cbn [startswith] in H. apply andb_true_iff in H as [Ha Hs].
  apply Ascii.eqb_eq in Ha. subst a.
  destruct (IH s Hs) as [b ->]. now exists b.
Qed.

Lemma contains_split (s sub : string) :
  contains s sub = true -> exists a b, s = a +:+ sub +:+ b.
Proof.
  induction s as [|x s IH]; cbn [contains]; intros H.
  - rewrite orb_false_r in H. destruct (startswith_split _ _ H) as [b ->].
    now exists "", b.
  - apply orb_true_iff in H as [H|H].
    + destruct (startswith_split _ _ H) as [b ->]. now exists "", b.
    + destruct (IH H) as (a & b & ->). now exists (String x a), b.
Qed.

Lemma contains_itself (s : string) : contains s s = true.
Proof.
  destruct s as [|a s]; [reflexivity|].
  cbn [contains].
  replace (startswith (String a s) (String a s)) with true; [reflexivity|].
  symmetry. rewrite <- (append_empty (String a s)) at 1.
  apply startswith_own_prefix.
Qed.

Lemma contains_middle (a sub b : string) : contains (a +:+ sub +:+ b) sub = true.
Proof.
  apply contains_append_before, contains_append_after, contains_itself.
Qed.

Lemma contains_trans (l s n : string) :
  contains l s = true -> contains s n = true -> contains l n = true.
Proof.
  intros Hl Hs.
  destruct (contains_split _ _ Hl) as (a & b & ->).
  apply contains_append_before, contains_append_after. exact Hs.
Qed.

(** ** The number of the criteria *)

Lemma span_digits_split (s : string) :
  s = fst (span_digits s) +:+ snd (span_digits s).
Proof.
  induction s as [|a s IH]; [reflexivity|].
  cbn [span_digits]. destruct (is_digit a); [|reflexivity].
  destruct (span_digits s) as [d r]. cbn [fst snd] in *.
  change (String a d +:+ r) with (String a (d +:+ r)). now rewrite <- IH.
Qed.

Lemma number_at_prefix (s : string) : exists rest, s = number_at s +:+ rest.
Proof.
  unfold number_at. pose proof (span_digits_split s) as Hs.
  destruct (span_digits s) as [d r]. cbn [fst snd] in Hs.
  destruct r as [|c r']; [now exists ""|].
  destruct (Ascii.eqb_spec c ".") as [->|Hc].
  - pose proof (span_digits_split r') as Hr.
    destruct (span_digits r') as [f r'']. cbn [fst snd] in Hr.
    destruct (is_empty f).
    + now exists (String "." r').
    + exists r''. rewrite Hs, Hr.
      change (String "." (f +:+ r'')) with ("." +:+ f +:+ r'').
      now rewrite !append_assoc.
  - exists (String c r').
    destruct c as [[] [] [] [] [] [] [] []]; try exact Hs; now elim Hc.
Qed.

Lemma number_at_not_empty (a : ascii) (s : string) :
  is_digit a = true -> is_empty (number_at (String a s)) = false.
Proof.
  intros Ha. unfold number_at. cbn [span_digits]. rewrite Ha.
  destruct (span_digits s) as [d r].
  destruct r as [|c r']; [reflexivity|].
  destruct c as [[] [] [] [] [] [] [] []]; try reflexivity.
  destruct (span_digits r') as [f r'']. now destruct (is_empty f).
Qed.

Lemma search_number_occurs (s n : string) :
  search_number s = Some n -> contains s n = true /\ truthy n = true.
Proof.
  induction s as [|a s IH]; [discriminate|].
  cbn [search_number]. destruct (is_digit a) eqn:Ha; intros H.
  - injection H as <-. split.
    + destruct (number_at_prefix (String a s)) as [rest Hrest].
      rewrite Hrest at 1. apply contains_append_after, contains_itself.
    + unfold truthy. now rewrite number_at_not_empty.
  - destruct (IH H) as [Hc Ht]. split; [|exact Ht].
    cbn [contains]. rewrite Hc. apply orb_true_r.
Qed.

(** X20. For an ASCII criteria and line: when the cleaned criteria holds
    a number, the line matches exactly when that number occurs in it, and
    the words of the criteria play no part. *)
Theorem number_in_criteria_decides (criteria number line : string) :
  Codec.is_ascii criteria = true ->
  Codec.is_ascii line = true ->
  search_number (Finance.clean criteria) = Some number ->
  Finance.line_matches criteria line = contains (lower line) number.
Proof.
  intros _ _ H. destruct (search_number_occurs _ _ H) as [Hocc Htruthy].
  unfold Finance.line_matches, Finance.number_hit. rewrite H, Htruthy.
  cbn [andb].
  destruct (contains (lower line) number) eqn:E; [reflexivity|].
  cbn [orb].
  destruct (contains (lower line) (Finance.clean criteria)) eqn:E2;
    [|reflexivity].
  rewrite <- E. symmetry. now apply contains_trans with (Finance.clean criteria).
Qed.

Lemma number_in_criteria_decides_witness :
  Finance.line_matches "delete the $10 coffee"
    "| 2025-10-12 09:15 | Expense | Food | Dinner | 25.0 | USD |"
  = true.
Proof.
  rewrite (number_in_criteria_decides "delete the $10 coffee" "10").
  - vm_compute. reflexivity.
  - vm_compute. reflexivity.
  - vm_compute. reflexivity.
  - vm_compute. reflexivity.
Defined.

(** ** The snippet and the query *)

Lemma append_length (a b : string) :
  String.length (a +:+ b) = String.length a + String.length b.
Proof.
  induction a as [|x a IH]; [reflexivity|].
  change (String x a +:+ b) with (String x (a +:+ b)).
  cbn [String.length]. now rewrite IH.
Qed.

Lemma lower_length (s : string) : String.length (lower s) = String.length s.
Proof.
  induction s as [|a s IH]; [reflexivity|].
  cbn [lower String.length]. now rewrite IH.
Qed.

Lemma lower_append (a b : string) : lower (a +:+ b) = lower a +:+ lower b.
Proof.
  induction a as [|x a IH]; [reflexivity|].
  change (String x a +:+ b) with (String x (a +:+ b)).
  cbn [lower]. now rewrite IH.
Qed.

Lemma lower_append_inv (s x y : string) :
  lower s = x +:+ y ->
  exists sx sy, s = sx +:+ sy /\ lower sx = x /\ lower sy = y.
Proof.
  revert s. induction x as [|c x IH]; intros s H.
  - now exists "", s.
  - destruct s as [|a s]; [discriminate|].
    change (String c x +:+ y) with (String c (x +:+ y)) in H.
    cbn [lower] in H. injection H as Hc Hs.
    destruct (IH s Hs) as (sx & sy & -> & Hx & Hy).
    exists (String a sx), sy. cbn [lower]. now rewrite Hc, Hx.
Qed.

Lemma lower_char_newline (c : ascii) :
  Ascii.eqb (lower_char c) "010" = Ascii.eqb c "010".
Proof. destruct c as [[] [] [] [] [] [] [] []]; vm_compute; reflexivity. Qed.

Lemma lower_newline (s : string) : contains (lower s) nl = contains s nl.
Proof.
  unfold nl. induction s as [|a s IH]; [reflexivity|].
  cbn [lower]. now rewrite !contains_char_cons, lower_char_newline, IH.
Qed.

Lemma find_from_first (s sub : string) (i : Z) :
  contains s sub = true ->
  exists a b,
    s = a +:+ sub +:+ b
    /\ find_from s sub i = (i + Z.of_nat (String.length a))%Z.
Proof.
  revert i. induction s as [|x s IH]; intros i H.
  - cbn [contains] in H. rewrite orb_false_r in H.
    destruct (startswith_split _ _ H) as [b Hb].
    exists "", b. split; [exact Hb|].
    cbn [find_from]. rewrite H. cbn [String.length]. lia.
  - cbn [find_from]. cbn [contains] in H.
    destruct (startswith (String x s) sub) eqn:E.
    + destruct (startswith_split _ _ E) as [b Hb].
      exists "", b. split; [exact Hb|]. cbn [String.length]. lia.
    + cbn [orb] in H. destruct (IH (i + 1)%Z H) as (a & b & -> & Hfind).
      exists (String x a), b. split; [reflexivity|].
      rewrite Hfind. cbn [String.length]. lia.
Qed.

Lemma substring_head (x b : string) (m : nat) :
  String.length x <= m ->
  exists b', substring 0 m (x +:+ b) = x +:+ b'.
Proof.
  revert m. induction x as [|c x IH]; intros m H.
  - now exists (substring 0 m b).
  - cbn [String.length] in H. destruct m as [|m]; [lia|].
    change (String c x +:+ b) with (String c (x +:+ b)).
    cbn [substring]. destruct (IH m ltac:(lia)) as [b' ->].
    now exists b'.
Qed.

Lemma substring_around (a q b : string) (k m : nat) :
  k <= String.length a ->
  String.length a - k + String.length q <= m ->
  exists a' b', substring k m (a +:+ q +:+ b) = a' +:+ q +:+ b'.
Proof.
  revert k. induction a as [|c a IH]; intros k Hk Hm.
  - cbn [String.length] in *. assert (k = 0%nat) as -> by lia.
    change ("" +:+ q +:+ b) with (q +:+ b).
    destruct (substring_head q b m ltac:(lia)) as [b' ->].
    now exists "", b'.
  - cbn [String.length] in *. destruct k as [|k].
    + rewrite <- append_assoc.
      destruct (substring_head (String c a +:+ q) b m) as [b' ->].
      { rewrite append_length. cbn [String.length]. lia. }
      exists (String c a), b'. now rewrite append_assoc.
    + change (String c a +:+ q +:+ b) with (String c (a +:+ q +:+ b)).
      cbn [substring]. apply IH; lia.
Qed.

Lemma replace_char_append (a b : ascii) (x y : string) :
  replace (x +:+ y) (String a "") (String b "")
  = replace x (String a "") (String b "")
    +:+ replace y (String a "") (String b "").
Proof.
  unfold replace. induction x as [|c x IH]; [reflexivity|].
  change (String c x +:+ y) with (String c (x +:+ y)).
  cbn [replace_go startswith String.length Nat.sub].
  rewrite !andb_true_r, IH. destruct (Ascii.eqb c a).
  - now rewrite append_assoc.
  - reflexivity.
Qed.

Lemma replace_char_absent_id (a b : ascii) (s : string) :
  contains s (String a "") = false ->
  replace s (String a "") (String b "") = s.
Proof.
  unfold replace. induction s as [|c s IH]; [reflexivity|].
  rewrite contains_char_cons. intros H.
  apply orb_false_iff in H as [Hc Hs].
  cbn [replace_go startswith String.length Nat.sub].
  now rewrite andb_true_r, Hc, (IH Hs).
Qed.

(** X17. For an ASCII content and query: when the query occurs in the
    content, up to case, has at most 100 characters and no newline, the
    snippet shows it: the lowercased query occurs in the lowercased
    snippet. *)
Theorem snippet_shows_the_query (content query : string) :
  Codec.is_ascii content = true ->
  Codec.is_ascii query = true ->
  contains (lower content) (lower query) = true ->
  String.length query <= 100 ->
  contains query nl = false ->
  contains (lower (Knowledge.snippet content query)) (lower query) = true.
Proof.
  intros _ _ Hocc Hlen Hnl.
  destruct (find_from_first _ _ 0%Z Hocc) as (a & b & Hsplit & Hfind).
  destruct (lower_append_inv _ _ _ Hsplit) as (sa & rest & -> & Ha & Hrest).
  destruct (lower_append_inv _ _ _ Hrest) as (sq & sb & -> & Hq & Hb).
  unfold Knowledge.snippet, find, slice. rewrite Hfind.
  pose proof (lower_length sa) as La. rewrite Ha in La.
  pose proof (lower_length sq) as Lq. rewrite Hq, lower_length in Lq.
  destruct (substring_around sa sq sb
              (Z.to_nat (Z.max 0 (0 + Z.of_nat (String.length a) - 50)))
              (Z.to_nat
                 (Z.min (Z.of_nat (String.length (sa +:+ sq +:+ sb)))
                    (0 + Z.of_nat (String.length a) + 100)
                  - Z.max 0 (0 + Z.of_nat (String.length a) - 50))))
    as (a' & b' & ->).
  - lia.
  - rewrite !append_length. lia.
  - assert (Hsq : contains sq (String "010" "") = false).
    { pose proof (lower_newline sq) as H1. pose proof (lower_newline query) as H2.
      unfold nl in *. rewrite Hq in H1. congruence. }
    unfold nl. rewrite !replace_char_append, (replace_char_absent_id _ _ sq Hsq).
    rewrite !lower_append, Hq. apply contains_middle.
Qed.

Lemma snippet_shows_the_query_witness :
  contains
    (lower (Knowledge.snippet
              ("# Reading list" +:+ nl +:+ "Ask Maria about the Rocq course.")
              "MARIA"))
    "maria"
  = true.
Proof.
  apply (snippet_shows_the_query
           ("# Reading list" +:+ nl +:+ "Ask Maria about the Rocq course.")
           "MARIA").
  - vm_compute. reflexivity.
  - vm_compute. reflexivity.
  - vm_compute. reflexivity.
  - vm_compute. lia.
  - vm_compute. reflexivity.
Defined.

(** ** The streak from one log to the next *)

Lemma no_linebreak_no_newline (s : string) :
  has_linebreak s = false -> contains s nl = false.
Proof.
  unfold has_linebreak, nl. induction s as [|a s IH]; [reflexivity|].
  cbn [any_char]. intros H. apply orb_false_iff in H as [Ha Hs].
  rewrite contains_char_cons, (IH Hs), orb_false_r.
  destruct (Ascii.eqb_spec a "010") as [->|_]; [discriminate Ha|reflexivity].
Qed.

Lemma habit_row_names_habit (date_str habit status comment : string) :
  contains (Goals.habit_row date_str habit status comment) habit = true.
Proof.
  unfold Goals.habit_row.
  apply contains_append_before, contains_append_before,
    contains_append_before, contains_append_after, contains_itself.
Qed.

Lemma habit_row_shows_status (date_str habit status comment x : string) :
  contains status x = true ->
  contains (Goals.habit_row date_str habit status comment) x = true.
Proof.
  intros H. unfold Goals.habit_row.
  apply contains_append_before, contains_append_before,
    contains_append_before, contains_append_before,
    contains_append_before.
  now apply contains_append_after.
Qed.

Lemma habit_row_success (date_str habit status comment : string) :
  Goals.has_success_mark status = true ->
  Goals.has_success_mark (Goals.habit_row date_str habit status comment) = true.
Proof.
  unfold Goals.has_success_mark. intros H.
  apply orb_true_iff in H as [H|H]; [apply orb_true_iff in H as [H|H]|].
  - now rewrite (habit_row_shows_status _ _ _ _ _ H).
  - rewrite (habit_row_shows_status _ _ _ _ _ H). now rewrite orb_true_r.
  - rewrite (habit_row_shows_status _ _ _ _ _ H). now rewrite !orb_true_r.
Qed.

Lemma join_ends_with_last (xs : list string) (y : string) :
  exists p, join nl (xs ++ [y]) = p +:+ y.
Proof.
  induction xs as [|x xs [p IH]]; [now exists ""|].
  destruct xs as [|x' xs].
  - exists (x +:+ nl). cbn [app join]. now rewrite append_assoc.
  - exists (x +:+ nl +:+ p).
    change (join nl ((x :: x' :: xs) ++ [y]))
      with (x +:+ nl +:+ join nl ((x' :: xs) ++ [y])).
    now rewrite IH, !append_assoc.
Qed.

Lemma lstrip_keeps_head (first rest : string) :
  truthy first = true -> lstrip first = first ->
  lstrip (first +:+ rest) = first +:+ rest.
Proof.
  destruct first as [|a t]; [discriminate|]. intros _ H.
  cbn [lstrip] in H.
  change (String a t +:+ rest) with (String a (t +:+ rest)).
  cbn [lstrip]. destruct (is_space a); [|reflexivity].
  pose proof (lstrip_length t) as Hlen. rewrite H in Hlen.
  cbn [String.length] in Hlen. lia.
Qed.

(** The text that [log_habit] writes when it appends [row] after the
    lines [first :: lines]. *)
Lemma appended_tracker_text (first : string) (lines extra : list string)
    (date_str habit status comment : string) :
  truthy first = true -> lstrip first = first ->
  strip (join nl ((first :: lines)
                  ++ extra ++ [Goals.habit_row date_str habit status comment]))
  +:+ nl
  = unlines ((first :: lines)
             ++ extra ++ [Goals.habit_row date_str habit status comment]).
Proof.
  intros Ht Hl. cbn [app]. rewrite <- join_unlines. f_equal.
  unfold strip.
  set (row := Goals.habit_row date_str habit status comment).
  assert (Hl' : lstrip (join nl (first :: lines ++ extra ++ [row]))
                = join nl (first :: lines ++ extra ++ [row])).
  { destruct (lines ++ extra ++ [row]) as [|x xs] eqn:E.
    - destruct lines, extra; discriminate E.
    - change (join nl (first :: x :: xs))
        with (first +:+ nl +:+ join nl (x :: xs)).
      now apply lstrip_keeps_head. }
  rewrite Hl'.
  destruct (join_ends_with_last (first :: lines ++ extra) row) as [p Hp].
  replace (first :: lines ++ extra ++ [row])
    with ((first :: lines ++ extra) ++ [row])
    by (cbn [app]; now rewrite <- app_assoc).
  rewrite Hp. apply rstrip_keeps.
  - apply (rstrip_table_row [date_str; habit; status; comment]).
  - reflexivity.
Qed.

(** What the streak loop sees of a tracker whose last row is [row]. *)
Lemma streak_after_row (habit row : string) (lines extra : list string) :
  truthy habit = true ->
  Forall (fun l => contains l nl = false) lines ->
  contains row nl = false ->
  extra = [] \/ extra = [""] ->
  contains row habit = true ->
  Goals.count_streak habit (rev (split "010" (unlines (lines ++ extra ++ [row])))) 0
  = if Goals.has_success_mark row
    then S (Goals.count_streak habit (rev (split "010" (unlines lines))) 0)
    else 0%nat.
Proof.
  intros Hh Hlines Hrow Hextra Hnames.
  assert (Hblank : contains "" habit = false)
    by (destruct habit; [discriminate Hh|reflexivity]).
  rewrite !split_unlines.
  2:{ exact Hlines. }
  2:{ apply Forall_app. split; [exact Hlines|].
      destruct Hextra as [->| ->]; repeat constructor; assumption. }
  assert (Hskip : forall l n,
             Goals.count_streak habit ("" :: l) n
             = Goals.count_streak habit l n).
  { intros l n. cbn [Goals.count_streak]. now rewrite Hblank. }
  assert (Hstep : forall l n,
             Goals.count_streak habit (row :: l) n
             = if Goals.has_success_mark row
               then Goals.count_streak habit l (S n) else n).
  { intros l n. cbn [Goals.count_streak]. rewrite Hnames. cbn [andb].
    now destruct (Goals.has_success_mark row). }
  rewrite !rev_app_distr. cbn [rev app]. rewrite !Hskip.
  destruct Hextra as [->| ->]; cbn [rev app]; rewrite Hstep, ?Hskip;
    destruct (Goals.has_success_mark row); try reflexivity;
    rewrite !count_streak_leading; lia.
Qed.

Lemma digit_is_plain (a : ascii) :
  is_digit a = true ->
  (N_of_ascii a <? 128)%N = true /\ is_linebreak a = false.
Proof.
  destruct a as [[] [] [] [] [] [] [] []]; vm_compute; intros H; split;
    congruence.
Qed.

Lemma digits_text (s : string) :
  all_chars is_digit s = true ->
  Codec.is_ascii s = true /\ has_linebreak s = false.
Proof.
  unfold has_linebreak. induction s as [|a s IH]; [split; reflexivity|].
  cbn [all_chars]. intros H. apply andb_true_iff in H as [Ha Hs].
  destruct (digit_is_plain a Ha) as [H1 H2]. destruct (IH Hs) as [H3 H4].
  cbn [Codec.is_ascii any_char]. now rewrite H1, H2, H3, H4.
Qed.

Lemma digits_all (d : Decimal.uint) :
  all_chars is_digit (NilEmpty.string_of_uint d) = true.
Proof.
  induction d; cbn [NilEmpty.string_of_uint all_chars]; [reflexivity|..];
    now rewrite IHd.
Qed.

Lemma str_of_nat_digits (n : nat) : all_chars is_digit (str_of_nat n) = true.
Proof.
  unfold str_of_nat, NilZero.string_of_uint.
  destruct (Nat.to_uint n) eqn:E; try (rewrite <- E; apply digits_all).
  reflexivity.
Qed.

Lemma has_linebreak_append (a b : string) :
  has_linebreak a = false -> has_linebreak b = false ->
  has_linebreak (a +:+ b) = false.
Proof.
  unfold has_linebreak. intros Ha Hb. now rewrite any_char_append, Ha, Hb.
Qed.

(** The comment of the coach is a text on one line. *)
Lemma coach_comment_text (streak : nat) (status : string) :
  Codec.utf8_valid (Goals.coach_comment streak status) = true
  /\ has_linebreak (Goals.coach_comment streak status) = false.
Proof.
  unfold Goals.coach_comment.
  destruct (digits_text _ (str_of_nat_digits streak)) as [Hascii Hbreak].
  destruct (2 <? streak)%nat.
  - split.
    + repeat (apply utf8_valid_append); try (vm_compute; reflexivity).
      now apply is_ascii_valid.
    + repeat (apply has_linebreak_append); try (vm_compute; reflexivity).
      exact Hbreak.
  - destruct (Goals.in_list _ _); split; vm_compute; reflexivity.
Qed.

(** So is the row, when its date, habit and status are. *)
Lemma habit_row_text (date_str habit status comment : string) :
  Codec.utf8_valid date_str = true -> has_linebreak date_str = false ->
  Codec.utf8_valid habit = true -> has_linebreak habit = false ->
  Codec.utf8_valid status = true -> has_linebreak status = false ->
  Codec.utf8_valid comment = true -> has_linebreak comment = false ->
  Codec.utf8_valid (Goals.habit_row date_str habit status comment) = true
  /\ has_linebreak (Goals.habit_row date_str habit status comment) = false.
Proof.
  intros. unfold Goals.habit_row. split.
  - repeat (apply utf8_valid_append); try assumption; reflexivity.
  - repeat (apply has_linebreak_append); try assumption; reflexivity.
Qed.

Lemma log_habit_appends (fs : vault) (now : clock) (habit status first : string)
    (lines : list string) :
  fs !! Goals.tracker_file = Some (unlines (first :: lines)) ->
  Forall (fun l => Codec.utf8_valid l = true) (first :: lines) ->
  Forall (fun l => has_linebreak l = false) (first :: lines) ->
  truthy first = true -> lstrip first = first ->
  Forall (fun l =>
            negb (Goals.is_passed l) && Goals.has_key l (ymd now) habit
            = false) (first :: lines) ->
  exists extra,
    (extra = [] \/ extra = [""])
    /\ Scenario.tracker_text (fst (Goals.log_habit fs now habit status))
       = unlines
           ((first :: lines) ++ extra
            ++ [Goals.habit_row (ymd now) habit status
                  (Goals.coach_comment
                     (Goals.streak_of (unlines (first :: lines)) habit status)
                     status)]).
Proof.
  intros Hfile Hvalid Hlines Ht Hl Hnone.
  unfold Goals.log_habit. rewrite Hfile, (read_lines _ Hvalid Hlines).
  cbn [fst].
  unfold Scenario.tracker_text. rewrite lookup_insert_eq.
  change (default "" (Some ?text)) with text.
  rewrite (splitlines_unlines _ Hlines), (update_row_none _ _ _ _ Hnone).
  unfold Goals.append_row.
  destruct (last (first :: lines)) as [l|].
  - destruct (truthy (strip l)).
    + exists [""]. split; [now right|].
      now rewrite <- (appended_tracker_text first lines [""]).
    + exists []. split; [now left|].
      now rewrite <- (appended_tracker_text first lines []).
  - exists []. split; [now left|].
    now rewrite <- (appended_tracker_text first lines []).
Qed.

(** The tracker that a log leaves, when it appends, is read as it was
    written, and its last row is the row of the log. *)
Lemma logged_tracker (fs : vault) (now : clock) (habit status first : string)
    (lines : list string) :
  fs !! Goals.tracker_file = Some (unlines (first :: lines)) ->
  Forall (fun l => Codec.plain l = true) (first :: lines) ->
  Forall (fun l => has_linebreak l = false) (first :: lines) ->
  truthy first = true -> lstrip first = first ->
  Forall (fun l =>
            negb (Goals.is_passed l) && Goals.has_key l (ymd now) habit
            = false) (first :: lines) ->
  Codec.plain habit = true -> has_linebreak habit = false ->
  Codec.is_ascii (ymd now) = true -> has_linebreak (ymd now) = false ->
  Codec.is_ascii status = true -> has_linebreak status = false ->
  let row :=
    Goals.habit_row (ymd now) habit status
      (Goals.coach_comment
         (Goals.streak_of (unlines (first :: lines)) habit status) status) in
  exists extra,
    (extra = [] \/ extra = [""])
    /\ has_linebreak row = false
    /\ Codec.read (Scenario.tracker_text
                     (fst (Goals.log_habit fs now habit status)))
       = Normal (unlines ((first :: lines) ++ extra ++ [row])).
Proof.
  intros Hfile Hplain Hlines Ht Hl Hnone Hh Hhb Hd Hdb Hs Hsb row.
  pose proof (plain_lines_valid _ Hplain) as Hvalid.
  destruct (log_habit_appends fs now habit status first lines
              Hfile Hvalid Hlines Ht Hl Hnone) as (extra & Hextra & ->).
  fold row.
  destruct (coach_comment_text
              (Goals.streak_of (unlines (first :: lines)) habit status) status)
    as [Hcv Hcb].
  destruct (habit_row_text (ymd now) habit status _
              (is_ascii_valid _ Hd) Hdb (plain_valid _ Hh) Hhb
              (is_ascii_valid _ Hs) Hsb Hcv Hcb) as [Hrv Hrb].
  fold row in Hrv, Hrb.
  exists extra. repeat split; [exact Hextra|exact Hrb|].
  apply read_lines.
  - apply Forall_app. split; [exact Hvalid|].
    apply Forall_app. split; [|now repeat constructor].
    destruct Hextra as [->| ->]; now repeat constructor.
  - apply Forall_app. split; [exact Hlines|].
    apply Forall_app. split; [|now repeat constructor].
    destruct Hextra as [->| ->]; now repeat constructor.
Qed.

(** X21. On a tracker of plain lines with no row of that day and habit,
    logging an ASCII status with a success mark raises by one the streak
    that the next log computes for the habit from the tracker it reads. *)
Theorem success_log_extends_the_streak (fs : vault) (now : clock)
    (habit status next_status first : string) (lines : list string) :
  fs !! Goals.tracker_file = Some (unlines (first :: lines)) ->
  Forall (fun l => Codec.plain l = true) (first :: lines) ->
  Forall (fun l => has_linebreak l = false) (first :: lines) ->
  truthy first = true -> lstrip first = first ->
  Forall (fun l =>
            negb (Goals.is_passed l) && Goals.has_key l (ymd now) habit
            = false) (first :: lines) ->
  truthy habit = true ->
  Codec.plain habit = true -> has_linebreak habit = false ->
  Codec.is_ascii (ymd now) = true -> has_linebreak (ymd now) = false ->
  Codec.is_ascii status = true -> has_linebreak status = false ->
  Codec.is_ascii next_status = true ->
  Goals.has_success_mark status = true ->
  Goals.is_success_status next_status = true ->
  exists content,
    Codec.read (Scenario.tracker_text
                  (fst (Goals.log_habit fs now habit status)))
    = Normal content
    /\ Goals.streak_of content habit next_status
       = S (Goals.streak_of (unlines (first :: lines)) habit next_status).
Proof.
  intros Hfile Hplain Hlines Ht Hl Hnone Hh Hhp Hhb Hd Hdb Hs Hsb _ Hmark
    Hnext.
  destruct (logged_tracker fs now habit status first lines
              Hfile Hplain Hlines Ht Hl Hnone Hhp Hhb Hd Hdb Hs Hsb)
    as (extra & Hextra & Hrow & Hread).
  eexists. split; [exact Hread|].
  unfold Goals.streak_of at 1 3. rewrite Hnext.
  rewrite streak_after_row; try assumption.
  - now rewrite habit_row_success.
  - eapply Forall_impl; [exact Hlines|]. intros l.
    apply no_linebreak_no_newline.
  - now apply no_linebreak_no_newline.
  - apply habit_row_names_habit.
Qed.

Lemma success_log_extends_the_streak_witness :
  let fs :=
    Scenario.tracker_after [("01", "Run", "Done"); ("02", "Run", "Done")] in
  let lines :=
    [ ""; "| Date | Habit | Status | Coach Comment |";
      "| :--- | :--- | :--- | :--- |"; "";
      "| 2025-11-01 | Run | Done | Keep pushing. |"; "";
      "| 2025-11-02 | Run | Done | Keep pushing. |" ] in
  exists content,
    Codec.read
      (Scenario.tracker_text
         (fst (Goals.log_habit fs (Scenario.november "03" "08:00") "Run"
                 "Done")))
    = Normal content
    /\ Goals.streak_of content "Run" "Done"
       = S (Goals.streak_of (unlines ("# Habit Tracker 🏃" :: lines)) "Run"
              "Done").
Proof.
  intros fs lines. subst lines.
  apply (success_log_extends_the_streak fs (Scenario.november "03" "08:00")
           "Run" "Done" "Done" "# Habit Tracker 🏃"
           [ ""; "| Date | Habit | Status | Coach Comment |";
             "| :--- | :--- | :--- | :--- |"; "";
             "| 2025-11-01 | Run | Done | Keep pushing. |"; "";
             "| 2025-11-02 | Run | Done | Keep pushing. |" ]).
  - vm_compute. reflexivity.
  - repeat (apply List.Forall_cons; [vm_compute; reflexivity|]).
    apply List.Forall_nil.
  - repeat (apply List.Forall_cons; [vm_compute; reflexivity|]).
    apply List.Forall_nil.
  - vm_compute. reflexivity.
  - vm_compute. reflexivity.
  - repeat (apply List.Forall_cons; [vm_compute; reflexivity|]).
    apply List.Forall_nil.
  - vm_compute. reflexivity.
  - vm_compute. reflexivity.
  - vm_compute. reflexivity.
  - vm_compute. reflexivity.
  - vm_compute. reflexivity.
  - vm_compute. reflexivity.
  - vm_compute. reflexivity.
  - vm_compute. reflexivity.
  - vm_compute. reflexivity.
  - vm_compute. reflexivity.
Defined.

(** X22. On a tracker of plain lines with no row of that day and habit,
    logging a row without a success mark makes the next log compute a
    streak of 0 from the tracker it reads. *)
Theorem other_log_ends_the_streak (fs : vault) (now : clock)
    (habit status next_status first : string) (lines : list string) :
  fs !! Goals.tracker_file = Some (unlines (first :: lines)) ->
  Forall (fun l => Codec.plain l = true) (first :: lines) ->
  Forall (fun l => has_linebreak l = false) (first :: lines) ->
  truthy first = true -> lstrip first = first ->
  Forall (fun l =>
            negb (Goals.is_passed l) && Goals.has_key l (ymd now) habit
            = false) (first :: lines) ->
  truthy habit = true ->
  Codec.plain habit = true -> has_linebreak habit = false ->
  Codec.is_ascii (ymd now) = true -> has_linebreak (ymd now) = false ->
  Codec.is_ascii status = true -> has_linebreak status = false ->
  Codec.is_ascii next_status = true ->
  Goals.has_success_mark
    (Goals.habit_row (ymd now) habit status
       (Goals.coach_comment
          (Goals.streak_of (unlines (first :: lines)) habit status) status))
  = false ->
  exists content,
    Codec.read (Scenario.tracker_text
                  (fst (Goals.log_habit fs now habit status)))
    = Normal content
    /\ Goals.streak_of content habit next_status = 0%nat.
Proof.
  intros Hfile Hplain Hlines Ht Hl Hnone Hh Hhp Hhb Hd Hdb Hs Hsb _ Hmark.
  destruct (logged_tracker fs now habit status first lines
              Hfile Hplain Hlines Ht Hl Hnone Hhp Hhb Hd Hdb Hs Hsb)
    as (extra & Hextra & Hrow & Hread).
  eexists. split; [exact Hread|].
  unfold Goals.streak_of at 1.
  destruct (Goals.is_success_status next_status); [|reflexivity].
  rewrite streak_after_row; try assumption.
  - now rewrite Hmark.
  - eapply Forall_impl; [exact Hlines|]. intros l.
    apply no_linebreak_no_newline.
  - now apply no_linebreak_no_newline.
  - apply habit_row_names_habit.
Qed.

(** The status "completed" is taken for a success when it is logged, and
    its row ends the streak at the next log. *)
Lemma other_log_ends_the_streak_witness :
  let fs :=
    Scenario.tracker_after [("01", "Run", "Done"); ("02", "Run", "Done")] in
  Goals.is_success_status "completed" = true
  /\ exists content,
       Codec.read
         (Scenario.tracker_text
            (fst (Goals.log_habit fs (Scenario.november "03" "08:00") "Run"
                    "completed")))
       = Normal content
       /\ Goals.streak_of content "Run" "Done" = 0%nat.
Proof.
  intros fs. split; [reflexivity|].
  apply (other_log_ends_the_streak fs (Scenario.november "03" "08:00")
           "Run" "completed" "Done" "# Habit Tracker 🏃"
           [ ""; "| Date | Habit | Status | Coach Comment |";
             "| :--- | :--- | :--- | :--- |"; "";
             "| 2025-11-01 | Run | Done | Keep pushing. |"; "";
             "| 2025-11-02 | Run | Done | Keep pushing. |" ]).
  - vm_compute. reflexivity.
  - repeat (apply List.Forall_cons; [vm_compute; reflexivity|]).
    apply List.Forall_nil.
  - repeat (apply List.Forall_cons; [vm_compute; reflexivity|]).
    apply List.Forall_nil.
  - vm_compute. reflexivity.
  - vm_compute. reflexivity.
  - repeat (apply List.Forall_cons; [vm_compute; reflexivity|]).
    apply List.Forall_nil.
  - vm_compute. reflexivity.
  - vm_compute. reflexivity.
  - vm_compute. reflexivity.
  - vm_compute. reflexivity.
  - vm_compute. reflexivity.
  - vm_compute. reflexivity.
  - vm_compute. reflexivity.
  - vm_compute. reflexivity.
  - vm_compute. reflexivity.
Defined.

(** ** The vault during a turn *)

Section Frame.

Context {Args session : Type}.
Variable send_message :
  session -> Orchestrator.message
  -> session * result (Orchestrator.response Args).

Import Orchestrator.

Lemma execute_tool_frame (tools : gmap string (tool Args)) (name : string)
    (args : Args) (w : world session) :
  (forall tool_name f a fs,
      tools !! tool_name = Some f -> fst (f a fs) = fs) ->
  files (fst (execute_tool tools name args w)) = files w.
Proof.
  intros Hro. unfold execute_tool.
  destruct (tools !! name) as [f|] eqn:E; [|reflexivity].
  unfold try_except, invoke.
  pose proof (Hro name f args (files w) E) as Hf.
  destruct (f args (files w)) as [fs' [r|e]]; cbn [fst] in *; now subst.
Qed.

Lemma loop_body_frame (tools : gmap string (tool Args)) (r : response Args)
    (w : world session) :
  (forall tool_name f a fs,
      tools !! tool_name = Some f -> fst (f a fs) = fs) ->
  files (fst (loop_body send_message tools r w)) = files w.
Proof.
  intros Hro. unfold loop_body.
  destruct (first_function_call r) as [[name args]|]; [|reflexivity].
  unfold bind at 1.
  pose proof (execute_tool_frame tools name args w Hro) as Hex.
  destruct (execute_tool tools name args w) as [w1 [tool_result|e]];
    cbn [fst] in *; [|exact Hex].
  unfold bind, chat_send.
  destruct (send_message (chat w1) _) as [c' [r'|e]]; cbn [fst files];
    exact Hex.
Qed.

(** X23. With a registry of tools that leave the vault as it is, the loop
    leaves the vault as it is, whatever the model answers. *)
Theorem loop_writes_only_through_tools (tools : gmap string (tool Args))
    (fuel : nat) (r : response Args) (w : world session) :
  (forall tool_name f a fs,
      tools !! tool_name = Some f -> fst (f a fs) = fs) ->
  files (fst (react_loop send_message fuel tools r w)) = files w.
Proof.
  intros Hro. revert r w. induction fuel as [|fuel IH]; intros r w;
    [reflexivity|].
  cbn [react_loop]. unfold bind at 1.
  pose proof (loop_body_frame tools r w Hro) as Hbody.
  destruct (loop_body send_message tools r w) as [w1 [[r'|]|e]];
    cbn [fst] in *.
  - now rewrite IH.
  - exact Hbody.
  - exact Hbody.
Qed.

End Frame.

(** A registry with a tool that only reads: whatever the model asks for,
    the ledger is as it was after three passes. *)
Lemma loop_writes_only_through_tools_witness :
  let tools : gmap string (Orchestrator.tool (list string)) :=
    <["get_vision" :=
        fun _ fs =>
          (fs, Normal
                 (default "No 5-Year Plan found. Please create one."
                    (fs !! "vault/Goals/5-Year-Plan.md")))]> ∅ in
  let send (c : nat) (m : Orchestrator.message) :=
    (S c, Normal
            [Orchestrator.Build_part ""
               (Some ("get_vision", ([] : list string)))]) in
  Orchestrator.files
    (fst (Orchestrator.react_loop send 3 tools
            [Orchestrator.Build_part "" (Some ("get_vision", []))]
            (Orchestrator.Build_world 0%nat Scenario.fresh_ledger)))
  = Scenario.fresh_ledger.
Proof.
  intros tools send.
  apply (loop_writes_only_through_tools send tools 3
           [Orchestrator.Build_part "" (Some ("get_vision", []))]
           (Orchestrator.Build_world 0%nat Scenario.fresh_ledger)).
  intros tool_name f a fs H. subst tools.
  destruct (decide (tool_name = "get_vision")) as [->|Hne].
  - rewrite lookup_insert_eq in H. injection H as <-. reflexivity.
  - rewrite lookup_insert_ne, lookup_empty in H by congruence. discriminate.
Defined.
